(** * dbt column-lineage harvester: the metadata client and its flatteners

    A shallow embedding of [metadata_api.py] (class [DbtMetadataApiClient])
    and the properties of its specification.

    Conventions of the embedding.
    - A Python [str] is a [string]; its characters stand for the code points
      U+0000..U+00FF.
    - A decoded JSON document is a [json] value; a Python [dict] is an
      association list with distinct keys kept in insertion order.
    - A Python call either returns or raises: [result A].
    - Code that talks to the service or prints runs in the monad [io], which
      threads the [World] (requests sent so far, lines printed so far).
    - A [pandas.DataFrame] built from a list of row dicts is the list of
      its rows; the empty frame [pd.DataFrame()] is [[]]. *)

From Stdlib Require Import String Ascii List ZArith Lia Bool Arith.
From Stdlib Require Import DecimalString.
Import ListNotations.

Local Open Scope list_scope.
Local Open Scope string_scope.

Set Implicit Arguments.
Set Warnings "-register-all".

(** ** JSON values *)

Inductive json : Type :=
| JNull
| JBool (b : bool)
| JNum (n : Z)
| JStr (s : string)
| JList (l : list json)
| JObj (d : list (string * json)).

(** ** Exceptions and results *)

(** The exceptions the client can meet; all derive from [Exception]. *)
Inductive exn : Type :=
| KeyError (key : json)
| IndexError
| TypeError
| AttributeError (attr : string)
| RequestException (msg : string)
| JSONDecodeError (msg : string).

Inductive result (A : Type) : Type :=
| Ok (a : A)
| Raise (e : exn).

Arguments Ok {A} a.
Arguments Raise {A} e.

Definition rbind {A B} (r : result A) (k : A -> result B) : result B :=
  match r with
  | Ok a => k a
  | Raise e => Raise e
  end.

Declare Scope result_scope.
Delimit Scope result_scope with result.
Notation "x <- r ;; k" := (rbind r (fun x => k))
  (at level 61, r at next level, right associativity) : result_scope.

(** A [for] loop (or comprehension) whose body may raise. *)
Fixpoint rmap {A B} (f : A -> result B) (l : list A) : result (list B) :=
  match l with
  | [] => Ok []
  | a :: l' =>
      match f a with
      | Ok b => match rmap f l' with
                | Ok bs => Ok (b :: bs)
                | Raise e => Raise e
                end
      | Raise e => Raise e
      end
  end.

(** ** Python dicts *)

Definition dict := list (string * json).

Fixpoint dict_get (k : string) (d : dict) : option json :=
  match d with
  | [] => None
  | (k', v) :: d' => if String.eqb k k' then Some v else dict_get k d'
  end.

Definition dict_has (k : string) (d : dict) : bool :=
  match dict_get k d with Some _ => true | None => false end.

(** [d[k] = v]: an existing key keeps its position, a new one goes last. *)
Fixpoint dict_set (k : string) (v : json) (d : dict) : dict :=
  match d with
  | [] => [(k, v)]
  | (k', v') :: d' =>
      if String.eqb k k' then (k, v) :: d' else (k', v') :: dict_set k v d'
  end.

(** [a | b]: the keys of [a] in order, overridden by [b], then [b]'s new keys. *)
Definition dict_union (a b : dict) : dict :=
  fold_left (fun acc kv => dict_set (fst kv) (snd kv) acc) b a.

Definition dict_keys (d : dict) : list string := map fst d.

(** ** The Python operations the client applies to decoded values *)

(** Truth value: [not v] is [negb (truthy v)]. *)
Definition truthy (v : json) : bool :=
  match v with
  | JNull => false
  | JBool b => b
  | JNum n => negb (Z.eqb n 0)
  | JStr s => negb (String.eqb s "")
  | JList l => match l with [] => false | _ => true end
  | JObj d => match d with [] => false | _ => true end
  end.

Fixpoint chars (s : string) : list string :=
  match s with
  | EmptyString => []
  | String c r => String c EmptyString :: chars r
  end.

(** [needle in hay] for two strings. *)
Fixpoint contains (needle hay : string) : bool :=
  String.prefix needle hay ||
  match hay with
  | EmptyString => false
  | String _ r => contains needle r
  end.

Definition json_is_str (k : string) (v : json) : bool :=
  match v with JStr s => String.eqb s k | _ => false end.

(** [k in v] for a string literal [k]. *)
Definition py_in (k : string) (v : json) : result bool :=
  match v with
  | JObj d => Ok (dict_has k d)
  | JList l => Ok (existsb (json_is_str k) l)
  | JStr s => Ok (contains k s)
  | _ => Raise TypeError
  end.

(** [v[k]] for a string literal [k]. *)
Definition py_getitem (v : json) (k : string) : result json :=
  match v with
  | JObj d => match dict_get k d with
              | Some x => Ok x
              | None => Raise (KeyError (JStr k))
              end
  | _ => Raise TypeError
  end.

(** [v.get(k)] and [v.get(k, default)]. *)
Definition py_get_default (v : json) (k : string) (default : json) : result json :=
  match v with
  | JObj d => Ok (match dict_get k d with Some x => x | None => default end)
  | _ => Raise (AttributeError "get")
  end.

Definition py_get (v : json) (k : string) : result json :=
  py_get_default v k JNull.

(** [len(v)]. *)
Definition py_len (v : json) : result nat :=
  match v with
  | JList l => Ok (List.length l)
  | JStr s => Ok (String.length s)
  | JObj d => Ok (List.length d)
  | _ => Raise TypeError
  end.

Definition string_of_nat (n : nat) : string :=
  NilZero.string_of_uint (Nat.to_uint n).

Definition string_of_Z (z : Z) : string :=
  NilZero.string_of_int (Z.to_int z).

(** [v[i]] for a non-negative integer [i] below [len(v)]. *)
Definition py_index (v : json) (i : nat) : result json :=
  match v with
  | JList l => match nth_error l i with
               | Some x => Ok x
               | None => Raise IndexError
               end
  | JStr s => match nth_error (chars s) i with
              | Some c => Ok (JStr c)
              | None => Raise IndexError
              end
  | JObj _ => Raise (KeyError (JNum (Z.of_nat i)))
  | _ => Raise TypeError
  end.

(** The items a [for] loop over [v] visits. *)
Definition py_iter (v : json) : result (list json) :=
  match v with
  | JList l => Ok l
  | JStr s => Ok (map JStr (chars s))
  | JObj d => Ok (map JStr (dict_keys d))
  | _ => Raise TypeError
  end.

(** [str.lower] on the code points U+0000..U+00FF. *)
Definition lower_ascii (c : ascii) : ascii :=
  let n := nat_of_ascii c in
  if (((65 <=? n) && (n <=? 90))
      || ((192 <=? n) && (n <=? 222) && negb (n =? 215)))%nat
  then ascii_of_nat (n + 32) else c.

Fixpoint lower (s : string) : string :=
  match s with
  | EmptyString => EmptyString
  | String c r => String (lower_ascii c) (lower r)
  end.

(** [v.lower()]. *)
Definition py_lower (v : json) : result json :=
  match v with
  | JStr s => Ok (JStr (lower s))
  | _ => Raise (AttributeError "lower")
  end.

(** ** The world: requests sent and lines printed *)

(** What [requests.post] hands back: [response.status_code],
    [response.text], and what [response.json()] does when called. *)
Record Response : Type := mkResponse {
  status_code : Z;
  text : string;
  json_body : result json
}.

(** What a [print] call was given.  The f-string of the per-model handler is
    kept with the two values it interpolates. *)
Inductive printed : Type :=
| Text (s : string)
| ErrorProcessingModel (unique_id : json) (e : exn).
    (* f"Error processing model: {unique_id} : {e}" *)

Record World : Type := mkWorld {
  requests : list string;   (* the [query] of every POST, oldest first *)
  stdout : list printed     (* one entry per [print] call, oldest first *)
}.

Definition io (A : Type) : Type := World -> World * result A.

Definition ret {A} (a : A) : io A := fun w => (w, Ok a).

Definition bind {A B} (m : io A) (k : A -> io B) : io B :=
  fun w =>
    match m w with
    | (w', Ok a) => k a w'
    | (w', Raise e) => (w', Raise e)
    end.

Definition lift {A} (r : result A) : io A := fun w => (w, r).

Definition print (line : printed) : io unit :=
  fun w => (mkWorld (requests w) (stdout w ++ [line])%list, Ok tt).

(** [try: m  except Exception as e: h e] *)
Definition try_except {A} (m : io A) (h : exn -> io A) : io A :=
  fun w =>
    match m w with
    | (w', Ok a) => (w', Ok a)
    | (w', Raise e) => h e w'
    end.

Declare Scope io_scope.
Delimit Scope io_scope with io.
Notation "x <-- m ;; k" := (bind m (fun x => k))
  (at level 61, m at next level, right associativity) : io_scope.
Notation "m ;;; k" := (bind m (fun _ => k))
  (at level 61, right associativity) : io_scope.

(** ** Tables *)

Definition row := dict.
Definition DataFrame := list row.

(** [df.empty] *)
Definition df_empty (df : DataFrame) : bool :=
  match df with [] => true | _ => false end.

(** [pd.concat(frames, ignore_index=True)] *)
Definition pd_concat (frames : list DataFrame) : DataFrame := concat frames.

(** ** [extract_parent_model_name] *)

(** The longest run of characters other than ['.'], and what follows it:
    what a greedy [[^.]+] consumes. *)
Fixpoint span_nondot (s : string) : string * string :=
  match s with
  | EmptyString => (EmptyString, EmptyString)
  | String c r =>
      if Ascii.eqb c "." then (EmptyString, s)
      else let (run, rest) := span_nondot r in (String c run, rest)
  end.

Fixpoint strip_prefix (p s : string) : option string :=
  match p, s with
  | EmptyString, _ => Some s
  | String a p', String b s' => if Ascii.eqb a b then strip_prefix p' s' else None
  | String _ _, EmptyString => None
  end.

(** [re.match(r'model\.([^.]+)\.([^.]+)', s)] and its [.groups()].  The
    first group cannot give characters back: the character after a maximal
    run of non-dots is a dot or the end, and only the maximal run is
    followed by the dot the pattern asks for. *)
Definition re_match_model (s : string) : option (string * string) :=
  match strip_prefix "model." s with
  | None => None
  | Some r =>
      match span_nondot r with
      | (EmptyString, _) => None
      | (package, String "."%char r') =>
          match span_nondot r' with
          | (EmptyString, _) => None
          | (model_name, _) => Some (package, model_name)
          end
      | (_, _) => None
      end
  end.

Definition extract_parent_model_name (parent_id : json) : result (option string) :=
  match parent_id with
  | JStr s =>
      if String.prefix "model." s then
        match re_match_model s with
        | Some (package, model_name) => Ok (Some (package ++ "." ++ model_name))
        | None => Ok None
        end
      else Ok None
  | _ => Raise (AttributeError "startswith")
  end.

Definition truthy_opt (o : option string) : bool :=
  match o with
  | Some s => negb (String.eqb s "")
  | None => false
  end.

Definition json_of_opt (o : option string) : json :=
  match o with
  | Some s => JStr s
  | None => JNull
  end.

(** [[extract(pid) for pid in parent_ids if extract(pid)]] *)
Fixpoint model_parents_of (parent_ids : list json) : result (list json) :=
  match parent_ids with
  | [] => Ok []
  | pid :: rest =>
      (keep <- extract_parent_model_name pid ;;
       if truthy_opt keep then
         name <- extract_parent_model_name pid ;;
         names <- model_parents_of rest ;;
         Ok (json_of_opt name :: names)
       else model_parents_of rest)%result
  end.

(** ** The fixed-width fan-out shared by both flatteners *)

(** [for i in range: row_data[f"{prefix}{i}"] = parents[i-1] if i <= len(parents) else None] *)
Fixpoint fan_out (prefix : string) (parents : json) (range : list nat)
    (row_data : dict) : result dict :=
  match range with
  | [] => Ok row_data
  | i :: range' =>
      (n <- py_len parents ;;
       if (i <=? n)%nat then
         x <- py_index parents (i - 1) ;;
         fan_out prefix parents range' (dict_set (prefix ++ string_of_nat i) x row_data)
       else
         fan_out prefix parents range' (dict_set (prefix ++ string_of_nat i) JNull row_data))%result
  end.

(** [range(1, 11)] *)
Definition range_1_11 : list nat := seq 1 10.

(** ** [parse_model_lineage_to_df] *)

(** The body of the loop over [lineage_data]. *)
Definition model_row (model : json) : result row :=
  (project_id <- py_get model "projectId" ;;
   database <- py_get model "database" ;;
   schema <- py_get model "schema" ;;
   name <- py_get model "name" ;;
   node_id <- py_get model "uniqueId" ;;
   tags <- py_get model "tags" ;;
   resource_type <- py_get model "resourceType" ;;
   materialization <- py_get model "materializationType" ;;
   access <- py_get model "access" ;;
   group <- py_get model "group" ;;
   version <- py_get model "version" ;;
   parent_ids0 <- py_get model "parentIds" ;;
   public_parent_ids <- py_get model "publicParentIds" ;;
   let row_data : dict :=
     [("project_id", project_id); ("database", database); ("schema", schema);
      ("name", name); ("node_id", node_id); ("tags", tags);
      ("resource_type", resource_type); ("materialization", materialization);
      ("access", access); ("group", group); ("version", version);
      ("parent_ids", parent_ids0); ("public_parent_ids", public_parent_ids)] in
   parent_ids <- py_get_default model "parentIds" (JList []) ;;
   pids <- py_iter parent_ids ;;
   model_parents <- model_parents_of pids ;;
   fan_out "parent_" (JList model_parents) range_1_11 row_data)%result.

(** [not response_data or k1 not in response_data
     or k2 not in response_data[k1]], evaluated left to right. *)
Definition path_guard (k1 k2 : string) (response_data : json) : result bool :=
  if negb (truthy response_data) then Ok true
  else
    (has1 <- py_in k1 response_data ;;
     if negb has1 then Ok true
     else
       inner <- py_getitem response_data k1 ;;
       has2 <- py_in k2 inner ;;
       Ok (negb has2))%result.

Definition parse_model_lineage_to_df (response_data : json) : io DataFrame :=
  (guard <-- lift (path_guard "data" "environment" response_data) ;;
   if guard then
     print (Text "No valid data found in the response") ;;;
     ret []
   else
     lineage_data <-- lift (d <- py_getitem response_data "data" ;;
                            e <- py_getitem d "environment" ;;
                            f <- py_getitem e "definition" ;;
                            py_getitem f "lineage")%result ;;
     models <-- lift (py_iter lineage_data) ;;
     rows <-- lift (rmap model_row models) ;;
     ret rows)%io.

(** ** [parse_column_lineage_to_df] *)

(** The body of the loop over [lineage_data]. *)
Definition column_row (item : json) : result row :=
  (project_id <- py_get item "projectId" ;;
   node_id <- py_get item "nodeUniqueId" ;;
   column_node_id <- py_get item "uniqueId" ;;
   name <- py_get item "name" ;;
   column_name <- py_lower name ;;
   description <- py_get item "description" ;;
   is_primary_key <- py_get item "isPrimaryKey" ;;
   transformation_type <- py_get item "transformationType" ;;
   origin_column_name <- py_get item "descriptionOriginColumnName" ;;
   origin_resource_unique_id <- py_get item "descriptionOriginResourceUniqueId" ;;
   relationship <- py_get item "relationship" ;;
   parent_columns0 <- py_get item "parentColumns" ;;
   child_columns <- py_get item "ChildColumns" ;;
   let row_data : dict :=
     [("project_id", project_id); ("node_id", node_id);
      ("column_node_id", column_node_id); ("column_name", column_name);
      ("description", description); ("is_primary_key", is_primary_key);
      ("transformation_type", transformation_type);
      ("description_origin_column_name", origin_column_name);
      ("description_origin_resource_unique_id", origin_resource_unique_id);
      ("relationship", relationship); ("parent_columns", parent_columns0);
      ("child_columns", child_columns)] in
   parent_columns <- py_get_default item "parentColumns" (JList []) ;;
   fan_out "parent_column_" parent_columns range_1_11 row_data)%result.

Definition parse_column_lineage_to_df (response_data : json) : io DataFrame :=
  (guard <-- lift (path_guard "data" "column" response_data) ;;
   if guard then
     print (Text "No valid column lineage data found in the response") ;;;
     ret []
   else
     lineage_data <-- lift (d <- py_getitem response_data "data" ;;
                            c <- py_getitem d "column" ;;
                            py_getitem c "lineage")%result ;;
     items <-- lift (py_iter lineage_data) ;;
     rows <-- lift (rmap column_row items) ;;
     ret rows)%io.

(** ** [json.dumps] and [str.replace] *)

Definition dquote : string := String "034"%char EmptyString.

Definition hex_digit (n : nat) : ascii :=
  if (n <? 10)%nat then ascii_of_nat (48 + n) else ascii_of_nat (87 + n).

(** One character of a string literal, with [ensure_ascii] on. *)
Definition escape_char (c : ascii) : string :=
  let n := nat_of_ascii c in
  if (n =? 34)%nat then "\" ++ dquote
  else if (n =? 92)%nat then "\\"
  else if (n =? 10)%nat then "\n"
  else if (n =? 13)%nat then "\r"
  else if (n =? 9)%nat then "\t"
  else if (n =? 8)%nat then "\b"
  else if (n =? 12)%nat then "\f"
  else if ((32 <=? n) && (n <=? 126))%nat then String c EmptyString
  else "\u00" ++ String (hex_digit (n / 16)) (String (hex_digit (n mod 16)) EmptyString).

Fixpoint escape (s : string) : string :=
  match s with
  | EmptyString => EmptyString
  | String c r => escape_char c ++ escape r
  end.

Definition quote (s : string) : string := dquote ++ escape s ++ dquote.

(** [sep.join(pieces)] *)
Fixpoint join (sep : string) (pieces : list string) : string :=
  match pieces with
  | [] => EmptyString
  | [p] => p
  | p :: ps => p ++ sep ++ join sep ps
  end.

(** [json.dumps(v)] with the default separators. *)
Fixpoint json_dumps (v : json) : string :=
  match v with
  | JNull => "null"
  | JBool true => "true"
  | JBool false => "false"
  | JNum n => string_of_Z n
  | JStr s => quote s
  | JList l => "[" ++ join ", " (map json_dumps l) ++ "]"
  | JObj d =>
      "{" ++ join ", " (map (fun kv : string * json =>
                               let (k, x) := kv in
                               quote k ++ ": " ++ json_dumps x) d) ++ "}"
  end.

(** [new] before every character of [s] and after the last. *)
Fixpoint intersperse (new s : string) : string :=
  match s with
  | EmptyString => new
  | String c r => new ++ String c (intersperse new r)
  end.

(** Scanning left to right; [fuel] bounds the characters still to read. *)
Fixpoint replace_from (fuel : nat) (old new s : string) : string :=
  match fuel with
  | O => s
  | S fuel' =>
      match strip_prefix old s with
      | Some rest => new ++ replace_from fuel' old new rest
      | None =>
          match s with
          | EmptyString => EmptyString
          | String c r => String c (replace_from fuel' old new r)
          end
      end
  end.

(** [s.replace(old, new)] *)
Definition str_replace (old new s : string) : string :=
  match old with
  | EmptyString => intersperse new s
  | _ => replace_from (String.length s) old new s
  end.

(** ** The client *)

Section Client.

(** The module-level [env_id = os.environ.get(...)]. *)
Variable env_id : option string.

(** The service: what [requests.post] does with a query, given the
    queries already sent.  It raises or hands back a response. *)
Variable post : list string -> string -> result Response.

(** [f"{env_id}"] *)
Definition format_env_id : string :=
  match env_id with
  | Some s => s
  | None => "None"
  end.

Definition requests_post (query : string) : io Response :=
  fun w => (mkWorld (requests w ++ [query])%list (stdout w), post (requests w) query).

(** The loop [for key, value in variables.items(): query = query.replace(...)]. *)
Definition substitute (variables : dict) (query : string) : string :=
  fold_left (fun q kv => str_replace ("$" ++ fst kv) (json_dumps (snd kv)) q)
            variables query.

(** [env = {...}; variables = variables | env if variables else env] *)
Definition effective_variables (variables : option dict) : dict :=
  let env : dict := [("environmentId", JStr format_env_id)] in
  match variables with
  | Some (kv :: vs) => dict_union (kv :: vs) env
  | _ => env
  end.

(** What follows the POST: the status test and its two branches. *)
Definition handle_response (response : Response) : io json :=
  (if Z.eqb (status_code response) 200 then
     lift (json_body response)
   else
     print (Text ("Query failed with status code " ++ string_of_Z (status_code response))) ;;;
     print (Text (text response)) ;;;
     ret (JObj []))%io.

Definition execute_query (query : string) (variables : option dict) : io json :=
  let variables := effective_variables variables in
  let query := substitute variables query in
  (response <-- requests_post query ;;
   handle_response response)%io.

Definition model_lineage_query : string := "
            query Environment {
                environment(id: $environmentId) {
                    adapterType
                    dbtProjectName
                    definition {
                        lineage(filter: { types: Model }) {
                            access
                            alias
                            database
                            filePath
                            group
                            matchesMethod
                            materializationType
                            name
                            parentIds
                            projectId
                            publicParentIds
                            resourceType
                            schema
                            tags
                            uniqueId
                            version
                        }
                    }
                }
            }
            ".

Definition query_model_lineage : io json :=
  execute_query model_lineage_query None.

Definition column_lineage_query : string := "
            query Column {
                column(environmentId: $environmentId) {
                    lineage(nodeUniqueId: $nodeUniqueId) {
                        accountId
                        childColumns
                        depth
                        description
                        descriptionOriginColumnName
                        descriptionOriginResourceUniqueId
                        environmentId
                        error
                        errorCategory
                        isError
                        isPrimaryKey
                        name
                        nodeUniqueId
                        parentColumns
                        projectId
                        relationship
                        runId
                        transformationType
                        uniqueId
                    }
                }
            }
            ".

Definition query_column_lineage (node_unique_id : json) : io json :=
  execute_query column_lineage_query (Some [("nodeUniqueId", node_unique_id)]).

(** One pass of the loop [for _, model in model_df.iterrows()]. *)
Definition process_model (model : row) (all_column_lineage_rows : list DataFrame)
  : io (list DataFrame) :=
  (unique_id <-- lift (py_getitem (JObj model) "node_id") ;;
   if negb (truthy unique_id) then ret all_column_lineage_rows
   else
     try_except
       (column_response <-- query_column_lineage unique_id ;;
        column_df <-- parse_column_lineage_to_df column_response ;;
        if negb (df_empty column_df)
        then ret (all_column_lineage_rows ++ [column_df])%list
        else ret all_column_lineage_rows)
       (fun e =>
          print (ErrorProcessingModel unique_id e) ;;;
          ret all_column_lineage_rows))%io.

Fixpoint process_models (models : DataFrame) (all_column_lineage_rows : list DataFrame)
  : io (list DataFrame) :=
  match models with
  | [] => ret all_column_lineage_rows
  | model :: models' =>
      (acc <-- process_model model all_column_lineage_rows ;;
       process_models models' acc)%io
  end.

Definition build_comprehensive_column_lineage : io DataFrame :=
  (model_response <-- query_model_lineage ;;
   model_df <-- parse_model_lineage_to_df model_response ;;
   if df_empty model_df then
     print (Text "No models found in the environment") ;;;
     ret []
   else
     all_column_lineage_rows <-- process_models model_df [] ;;
     match all_column_lineage_rows with
     | _ :: _ => ret (pd_concat all_column_lineage_rows)
     | [] => ret []
     end)%io.

End Client.

(** * Properties *)

(** ** Parent-name derivation *)

(** [s.split('.')]: the dot-separated segments of [s], read off the
    specification's wording. *)
Fixpoint split_dots (s : string) : list string :=
  match s with
  | EmptyString => [EmptyString]
  | String c r =>
      if Ascii.eqb c "." then EmptyString :: split_dots r
      else match split_dots r with
           | p :: ps => String c p :: ps
           | [] => [String c EmptyString]
           end
  end.

Definition nonempty (s : string) : bool := negb (String.eqb s "").

(** The specification's rule: an identifier beginning with [model.] whose
    first two dot-separated segments after the prefix are a package and a
    model name yields [package.model_name]. *)
Definition spec_parent_name (parent_id : string) : option string :=
  match strip_prefix "model." parent_id with
  | Some rest =>
      match split_dots rest with
      | package :: model_name :: _ =>
          if nonempty package && nonempty model_name
          then Some (package ++ "." ++ model_name)
          else None
      | _ => None
      end
  | None => None
  end.

(** What one raw identifier adds to the fan-out list. *)
Definition spec_contribution (parent_id : string) : list json :=
  match spec_parent_name parent_id with
  | Some name => [JStr name]
  | None => []
  end.

Lemma strip_prefix_prefix (p s : string) :
  String.prefix p s = true <-> exists r, strip_prefix p s = Some r.
Proof.
  revert s; induction p as [|a p IH]; intros s; simpl.
  - split; [intros _; now exists s | now destruct s].
  - destruct s as [|b s]; simpl.
    + split; [discriminate | intros [r Hr]; discriminate].
    + destruct (Ascii.ascii_dec a b) as [->|Hne].
      * rewrite Ascii.eqb_refl. apply IH.
      * destruct (Ascii.eqb_spec a b) as [Heq|_]; [contradiction|].
        split; [discriminate | intros [r Hr]; discriminate].
Qed.

Lemma strip_prefix_app (p s r : string) :
  strip_prefix p s = Some r -> s = p ++ r.
Proof.
  revert s; induction p as [|a p IH]; intros s; simpl.
  - now intros [= ->].
  - destruct s as [|b s]; [discriminate|].
    destruct (Ascii.eqb_spec a b) as [->|]; [|discriminate].
    intros H. now rewrite (IH _ H).
Qed.

Lemma split_dots_not_nil (s : string) : split_dots s <> [].
Proof.
  induction s as [|c r IH]; simpl; [discriminate|].
  destruct (Ascii.eqb c "."); [discriminate|].
  destruct (split_dots r); discriminate.
Qed.

(** A greedy run of non-dots is the first segment; the rest of the split
    starts after the dot that ended the run. *)
Lemma span_nondot_split (s : string) :
  split_dots s =
    fst (span_nondot s) ::
    match snd (span_nondot s) with
    | String "."%char r' => split_dots r'
    | _ => []
    end.
Proof.
  induction s as [|c r IH]; simpl; [reflexivity|].
  destruct (Ascii.eqb_spec c ".") as [->|Hne].
  - reflexivity.
  - rewrite IH. destruct (span_nondot r) as [run rest]. reflexivity.
Qed.

Lemma span_nondot_rest (s : string) :
  snd (span_nondot s) = EmptyString \/
  exists r', snd (span_nondot s) = String "."%char r'.
Proof.
  induction s as [|c r IH]; simpl; [now left|].
  destruct (Ascii.eqb_spec c ".") as [->|Hne].
  - right. now exists r.
  - destruct (span_nondot r) as [run rest]. exact IH.
Qed.

Lemma re_match_model_spec (s : string) :
  match re_match_model s with
  | Some (package, model_name) => Some (package ++ "." ++ model_name)
  | None => None
  end = spec_parent_name s.
Proof.
  unfold re_match_model, spec_parent_name.
  destruct (strip_prefix "model." s) as [r|]; [|reflexivity].
  rewrite (span_nondot_split r).
  destruct (span_nondot_rest r) as [Hr|[r' Hr]];
    destruct (span_nondot r) as [pkg rest]; simpl in *; subst rest.
  - destruct pkg; reflexivity.
  - rewrite (span_nondot_split r').
    destruct (span_nondot r') as [name rest']; simpl.
    destruct pkg as [|a pkg]; [reflexivity|].
    destruct name as [|b name]; reflexivity.
Qed.

Lemma extract_parent_model_name_spec (s : string) :
  extract_parent_model_name (JStr s) = Ok (spec_parent_name s).
Proof.
  unfold extract_parent_model_name.
  destruct (String.prefix "model." s) eqn:Hp.
  - rewrite <- re_match_model_spec.
    destruct (re_match_model s) as [[pkg name]|]; reflexivity.
  - unfold spec_parent_name.
    destruct (strip_prefix "model." s) as [r|] eqn:Hs; [|reflexivity].
    assert (String.prefix "model." s = true) as Hp'
      by (apply strip_prefix_prefix; now exists r).
    congruence.
Qed.

Lemma spec_parent_name_truthy (s name : string) :
  spec_parent_name s = Some name -> truthy_opt (Some name) = true.
Proof.
  unfold spec_parent_name.
  destruct (strip_prefix "model." s); [|discriminate].
  destruct (split_dots s0) as [|pkg [|nm l]]; try discriminate.
  destruct pkg as [|a pkg]; simpl; [discriminate|].
  destruct (nonempty nm); [|discriminate].
  now intros [= <-].
Qed.

Lemma model_parents_of_strings (parent_ids : list string) :
  model_parents_of (map JStr parent_ids) = Ok (flat_map spec_contribution parent_ids).
Proof.
  induction parent_ids as [|pid rest IH]; [reflexivity|].
  cbn [map model_parents_of flat_map].
  rewrite !extract_parent_model_name_spec. cbn [rbind].
  unfold spec_contribution at 1.
  destruct (spec_parent_name pid) as [name|] eqn:Hn.
  - rewrite (spec_parent_name_truthy _ Hn), IH. reflexivity.
  - cbn [truthy_opt]. exact IH.
Qed.

(** C2. A raw parent identifier that is [model.<package>.<name>] (the
    prefix [model.], then two non-empty dot-separated segments) yields
    [package.name]; any other string yields nothing; and in the list built
    for a row every identifier adds exactly its own contribution, so a
    non-matching one is dropped rather than kept as a null. *)
Theorem C2_parent_name_derivation :
  (forall parent_id : string,
      extract_parent_model_name (JStr parent_id) = Ok (spec_parent_name parent_id)) /\
  (forall parent_ids : list string,
      model_parents_of (map JStr parent_ids)
      = Ok (flat_map spec_contribution parent_ids)) /\
  model_parents_of [JStr "source.analytics.raw_orders"] = Ok [] /\
  model_parents_of [JStr "model.analytics.stg_orders"] = Ok [JStr "analytics.stg_orders"].
Proof.
  split; [exact extract_parent_model_name_spec|].
  split; [exact model_parents_of_strings|].
  split; reflexivity.
Qed.

(** ** The fan-out over a list *)

(** The cell a fan-out writes at position [i]: the [i]-th item, or null
    when the list is shorter. *)
Definition fan_cell (parents : list json) (i : nat) : json := nth (i - 1) parents JNull.

Definition fan_columns (prefix : string) (parents : list json) (range : list nat) : dict :=
  map (fun i => (prefix ++ string_of_nat i, fan_cell parents i)) range.

Lemma fan_out_list (prefix : string) (parents : list json) (range : list nat) :
  Forall (fun i => 1 <= i) range ->
  forall row_data : dict,
    fan_out prefix (JList parents) range row_data
    = Ok (fold_left (fun r i => dict_set (prefix ++ string_of_nat i) (fan_cell parents i) r)
                    range row_data).
Proof.
  induction 1 as [|i range Hi _ IH]; intros row_data; [reflexivity|].
  cbn [fan_out py_len rbind fold_left].
  destruct (Nat.leb_spec i (List.length parents)) as [Hle|Hgt].
  - cbn [py_index].
    rewrite (nth_error_nth' parents JNull) by lia.
    cbn [rbind]. apply IH.
  - unfold fan_cell at 2. rewrite (nth_overflow parents JNull) by lia. apply IH.
Qed.

Lemma range_1_11_positive : Forall (fun i => 1 <= i) range_1_11.
Proof. unfold range_1_11. apply Forall_forall. intros i Hi. apply in_seq in Hi. lia. Qed.

Lemma fan_cell_inside (parents : list json) (i : nat) :
  1 <= i <= List.length parents -> nth_error parents (i - 1) = Some (fan_cell parents i).
Proof. intros H. unfold fan_cell. apply nth_error_nth'. lia. Qed.

Lemma fan_cell_beyond (parents : list json) (i : nat) :
  List.length parents < i -> fan_cell parents i = JNull.
Proof. intros H. unfold fan_cell. apply nth_overflow. lia. Qed.

(** [d.get(k)] on a dict. *)
Definition get_or_null (d : dict) (k : string) : json :=
  match dict_get k d with Some x => x | None => JNull end.

Lemma rmap_Forall2 {A B} (f : A -> result B) (P : A -> B -> Prop) (l : list A) :
  Forall (fun a => exists b, f a = Ok b /\ P a b) l ->
  exists bs, rmap f l = Ok bs /\ Forall2 P l bs.
Proof.
  induction 1 as [|a l [b [Hb HP]] _ [bs [Hbs HF]]]; simpl.
  - exists []. split; [reflexivity | constructor].
  - exists (b :: bs). rewrite Hb, Hbs. split; [reflexivity | now constructor].
Qed.

Lemma rmap_Raise {A B} (f : A -> result B) (l : list A) :
  Exists (fun a => exists e, f a = Raise e) l ->
  exists e, rmap f l = Raise e.
Proof.
  induction 1 as [a l [e He]|a l _ [e He]]; simpl.
  - exists e. now rewrite He.
  - destruct (f a) as [b|e']; [|now exists e'].
    exists e. now rewrite He.
Qed.

(** ** Model rows *)

Definition model_base_columns : list string :=
  ["project_id"; "database"; "schema"; "name"; "node_id"; "tags";
   "resource_type"; "materialization"; "access"; "group"; "version";
   "parent_ids"; "public_parent_ids"].

Definition parent_name_columns : list string :=
  map (fun i => "parent_" ++ string_of_nat i) (seq 1 10).

(** A lineage entry as the service sends it: an object whose [parentIds],
    when present, is a list of strings. *)
Definition model_entry (entry : json) (fields : dict) (parent_ids : list string) : Prop :=
  entry = JObj fields /\
  (dict_get "parentIds" fields = Some (JList (map JStr parent_ids)) \/
   dict_get "parentIds" fields = None /\ parent_ids = []).

Definition has_path3 (response_data : json) (k1 k2 k3 : string) (leaf : json) : Prop :=
  exists top d1 d2,
    response_data = JObj top /\
    dict_get k1 top = Some (JObj d1) /\
    dict_get k2 d1 = Some (JObj d2) /\
    dict_get k3 d2 = Some leaf.

(** [data.environment.definition.lineage] is present and holds [entries]. *)
Definition has_model_lineage (response_data : json) (entries : list json) : Prop :=
  exists definition,
    has_path3 response_data "data" "environment" "definition" (JObj definition) /\
    dict_get "lineage" definition = Some (JList entries).

Lemma model_row_entry (entry : json) (fields : dict) (parent_ids : list string) :
  model_entry entry fields parent_ids ->
  model_row entry =
    Ok ([("project_id", get_or_null fields "projectId");
         ("database", get_or_null fields "database");
         ("schema", get_or_null fields "schema");
         ("name", get_or_null fields "name");
         ("node_id", get_or_null fields "uniqueId");
         ("tags", get_or_null fields "tags");
         ("resource_type", get_or_null fields "resourceType");
         ("materialization", get_or_null fields "materializationType");
         ("access", get_or_null fields "access");
         ("group", get_or_null fields "group");
         ("version", get_or_null fields "version");
         ("parent_ids", get_or_null fields "parentIds");
         ("public_parent_ids", get_or_null fields "publicParentIds")]
        ++ fan_columns "parent_" (flat_map spec_contribution parent_ids) (seq 1 10))%list.
Proof.
  intros [-> Hp].
  unfold model_row, py_get. cbn [py_get_default rbind].
  assert (py_iter (match dict_get "parentIds" fields with
                   | Some x => x
                   | None => JList []
                   end) = Ok (map JStr parent_ids)) as ->.
  { destruct Hp as [->|[-> ->]]; reflexivity. }
  cbn [rbind]. rewrite model_parents_of_strings. cbn [rbind].
  rewrite fan_out_list by apply range_1_11_positive.
  reflexivity.
Qed.

Lemma path_guard_present (k1 k2 : string) (top d1 : dict) (x : json) :
  dict_get k1 top = Some (JObj d1) ->
  dict_get k2 d1 = Some x ->
  path_guard k1 k2 (JObj top) = Ok false.
Proof.
  intros H1 H2. unfold path_guard.
  assert (truthy (JObj top) = true) as -> by (destruct top; [discriminate | reflexivity]).
  cbn [negb py_in py_getitem rbind]. unfold dict_has.
  rewrite H1. cbn [negb rbind py_in]. unfold dict_has. now rewrite H2.
Qed.

(** What C1 says of the row made from one entry. *)
Definition model_row_shape (entry : json) (r : row) : Prop :=
  exists fields parent_ids,
    model_entry entry fields parent_ids /\
    dict_keys r = (model_base_columns ++ parent_name_columns)%list /\
    forall i, 1 <= i <= 10 ->
      let recognized := flat_map spec_contribution parent_ids in
      dict_get ("parent_" ++ string_of_nat i) r = Some (fan_cell recognized i) /\
      (i <= List.length recognized ->
         nth_error recognized (i - 1) = Some (fan_cell recognized i)) /\
      (List.length recognized < i -> fan_cell recognized i = JNull).

Ltac cases_1_10 i H :=
  assert (i = 1 \/ i = 2 \/ i = 3 \/ i = 4 \/ i = 5 \/
          i = 6 \/ i = 7 \/ i = 8 \/ i = 9 \/ i = 10) as H by lia;
  repeat (destruct H as [H|H]; [subst i|]); [..|subst i].

Lemma model_row_entry_shape (entry : json) :
  (exists fields parent_ids, model_entry entry fields parent_ids) ->
  exists r, model_row entry = Ok r /\ model_row_shape entry r.
Proof.
  intros (fields & parent_ids & He).
  eexists. split; [exact (model_row_entry He)|].
  exists fields, parent_ids. split; [exact He|]. split; [reflexivity|].
  intros i Hi recognized. split; [|split].
  - cases_1_10 i H; reflexivity.
  - intros Hle. apply fan_cell_inside. lia.
  - apply fan_cell_beyond.
Qed.

(** C1. A response whose path [data.environment.definition.lineage] holds a
    list of lineage entries is flattened to one row per entry; each row has
    the thirteen base columns followed by exactly [parent_1] .. [parent_10];
    position [i] holds the [i]-th recognized model parent and is null once
    [i] exceeds their count. *)
Theorem C1_model_table_shape (response_data : json) (entries : list json) (w : World) :
  has_model_lineage response_data entries ->
  Forall (fun entry => exists fields parent_ids, model_entry entry fields parent_ids)
         entries ->
  exists rows,
    parse_model_lineage_to_df response_data w = (w, Ok rows) /\
    List.length rows = List.length entries /\
    Forall2 model_row_shape entries rows.
Proof.
  intros (definition & (top & d1 & d2 & -> & H1 & H2 & H3) & H4) Hentries.
  destruct (@rmap_Forall2 _ _ model_row model_row_shape entries) as (rows & Hrows & HF).
  { eapply Forall_impl; [|exact Hentries]. intros entry. apply model_row_entry_shape. }
  exists rows. split; [|split].
  - unfold parse_model_lineage_to_df, bind, lift, ret.
    rewrite (@path_guard_present _ _ _ _ _ H1 H2).
    cbn [py_getitem rbind]. rewrite H1. cbn [py_getitem rbind]. rewrite H2.
    cbn [py_getitem rbind]. rewrite H3. cbn [py_getitem rbind]. rewrite H4.
    cbn [py_iter]. now rewrite Hrows.
  - symmetry. exact (Forall2_length HF).
  - exact HF.
Qed.

Definition C1_entries : list json :=
  [JObj [("uniqueId", JStr "model.shop.orders");
         ("parentIds", JList (map JStr ["source.shop.raw_orders";
                                        "model.shop.stg_orders";
                                        "model.shop.stg_customers"]))];
   JObj [("uniqueId", JStr "model.shop.stg_orders")]].

Definition C1_response : json :=
  JObj [("data", JObj [("environment", JObj [("definition",
     JObj [("lineage", JList C1_entries)])])])].

Lemma C1_model_table_shape_witness :
  exists rows,
    parse_model_lineage_to_df C1_response (mkWorld [] []) = (mkWorld [] [], Ok rows) /\
    List.length rows = List.length C1_entries /\
    Forall2 model_row_shape C1_entries rows.
Proof.
  apply (@C1_model_table_shape C1_response C1_entries (mkWorld [] [])).
  - exists [("lineage", JList C1_entries)]. split; [|reflexivity].
    eexists _, _, _.
    split; [reflexivity|]. split; [reflexivity|]. split; reflexivity.
  - repeat constructor.
    + eexists _, _. split; [reflexivity|]. left. reflexivity.
    + eexists _, []. split; [reflexivity|]. right. split; reflexivity.
Defined.

Example C1_rows :
  parse_model_lineage_to_df C1_response (mkWorld [] [])
  = (mkWorld [] [],
     Ok [[("project_id", JNull); ("database", JNull); ("schema", JNull);
          ("name", JNull); ("node_id", JStr "model.shop.orders"); ("tags", JNull);
          ("resource_type", JNull); ("materialization", JNull); ("access", JNull);
          ("group", JNull); ("version", JNull);
          ("parent_ids", JList [JStr "source.shop.raw_orders";
                                JStr "model.shop.stg_orders";
                                JStr "model.shop.stg_customers"]);
          ("public_parent_ids", JNull);
          ("parent_1", JStr "shop.stg_orders"); ("parent_2", JStr "shop.stg_customers");
          ("parent_3", JNull); ("parent_4", JNull); ("parent_5", JNull);
          ("parent_6", JNull); ("parent_7", JNull); ("parent_8", JNull);
          ("parent_9", JNull); ("parent_10", JNull)];
         [("project_id", JNull); ("database", JNull); ("schema", JNull);
          ("name", JNull); ("node_id", JStr "model.shop.stg_orders"); ("tags", JNull);
          ("resource_type", JNull); ("materialization", JNull); ("access", JNull);
          ("group", JNull); ("version", JNull);
          ("parent_ids", JNull); ("public_parent_ids", JNull);
          ("parent_1", JNull); ("parent_2", JNull);
          ("parent_3", JNull); ("parent_4", JNull); ("parent_5", JNull);
          ("parent_6", JNull); ("parent_7", JNull); ("parent_8", JNull);
          ("parent_9", JNull); ("parent_10", JNull)]]).
Proof. reflexivity. Qed.

(** ** The guard of the model flattener *)

(** What the guard of [parse_model_lineage_to_df] looks at: the response is
    empty, or it is an object without [data], or its [data] is an object
    without [environment]. *)
Definition model_guard_fires (response_data : json) : Prop :=
  truthy response_data = false \/
  exists top,
    response_data = JObj top /\
    (dict_get "data" top = None \/
     exists d1, dict_get "data" top = Some (JObj d1) /\ dict_get "environment" d1 = None).

(** The absence the claim speaks of: some key of the path
    [data.environment.definition.lineage] is missing at its level, or the
    response is empty. *)
Definition model_lineage_absent (response_data : json) : Prop :=
  response_data = JObj [] \/
  exists top,
    response_data = JObj top /\
    (dict_get "data" top = None \/
     exists d1, dict_get "data" top = Some (JObj d1) /\
       (dict_get "environment" d1 = None \/
        exists d2, dict_get "environment" d1 = Some (JObj d2) /\
          (dict_get "definition" d2 = None \/
           exists d3, dict_get "definition" d2 = Some (JObj d3) /\
                      dict_get "lineage" d3 = None))).

Lemma path_guard_fires (k1 k2 : string) (response_data : json) :
  (truthy response_data = false \/
   exists top,
     response_data = JObj top /\
     (dict_get k1 top = None \/
      exists d1, dict_get k1 top = Some (JObj d1) /\ dict_get k2 d1 = None)) ->
  path_guard k1 k2 response_data = Ok true.
Proof.
  unfold path_guard.
  intros [Hf|(top & -> & H)]; [now rewrite Hf|].
  destruct (truthy (JObj top)); [|reflexivity].
  cbn [negb py_in rbind]. unfold dict_has.
  destruct H as [->|(d1 & H1 & H2)]; [reflexivity|].
  rewrite H1. cbn [negb py_getitem rbind]. rewrite H1.
  cbn [rbind py_in]. unfold dict_has. now rewrite H2.
Qed.

Definition no_valid_data : printed := Text "No valid data found in the response".

(** C3, as the code has it.  When the response is empty, or has no [data],
    or its [data] has no [environment], the model flattener prints its
    notice and returns the empty table; nothing is raised. *)
Theorem C3_guarded_absence_is_soft (response_data : json) (w : World) :
  model_guard_fires response_data ->
  parse_model_lineage_to_df response_data w
  = (mkWorld (requests w) (stdout w ++ [no_valid_data])%list, Ok []).
Proof.
  intros H. unfold parse_model_lineage_to_df, bind, lift, ret, print.
  now rewrite (path_guard_fires "data" "environment" H).
Qed.

Lemma C3_guarded_absence_is_soft_witness :
  parse_model_lineage_to_df (JObj [("data", JObj [("errors", JList [])])]) (mkWorld [] [])
  = (mkWorld [] [no_valid_data], Ok []).
Proof.
  apply (@C3_guarded_absence_is_soft
           (JObj [("data", JObj [("errors", JList [])])]) (mkWorld [] [])).
  right. eexists. split; [reflexivity|]. right.
  eexists. split; reflexivity.
Defined.

Definition C3_response : json :=
  JObj [("data", JObj [("environment", JObj [("dbtProjectName", JStr "shop")])])].

(** C3 as stated fails below the guard: with [data.environment] present
    and [definition] missing, the path is absent and the flattener raises
    [KeyError('definition')]. *)
Lemma C3_missing_definition_raises :
  model_lineage_absent C3_response /\
  parse_model_lineage_to_df C3_response (mkWorld [] [])
  = (mkWorld [] [], Raise (KeyError (JStr "definition"))).
Proof.
  split; [|reflexivity].
  right. eexists. split; [reflexivity|]. right.
  eexists. split; [reflexivity|]. right.
  eexists. split; [reflexivity|]. left. reflexivity.
Qed.

Example C3_missing_lineage_raises (w : World) :
  parse_model_lineage_to_df
    (JObj [("data", JObj [("environment", JObj [("definition", JObj [("x", JNull)])])])]) w
  = (w, Raise (KeyError (JStr "lineage"))).
Proof. reflexivity. Qed.

(** ** Column rows *)

Definition column_base_columns : list string :=
  ["project_id"; "node_id"; "column_node_id"; "column_name"; "description";
   "is_primary_key"; "transformation_type"; "description_origin_column_name";
   "description_origin_resource_unique_id"; "relationship"; "parent_columns";
   "child_columns"].

Definition parent_column_columns : list string :=
  map (fun i => "parent_column_" ++ string_of_nat i) (seq 1 10).

(** A column-lineage entry as the service sends it: an object with a string
    [name] whose [parentColumns], when present, is a list. *)
Definition column_entry (item : json) (fields : dict) (name : string)
    (parent_columns : list json) : Prop :=
  item = JObj fields /\
  dict_get "name" fields = Some (JStr name) /\
  (dict_get "parentColumns" fields = Some (JList parent_columns) \/
   dict_get "parentColumns" fields = None /\ parent_columns = []).

(** [data.column.lineage] is present and holds [items]. *)
Definition has_column_lineage (response_data : json) (items : list json) : Prop :=
  has_path3 response_data "data" "column" "lineage" (JList items).

Lemma column_row_entry (item : json) (fields : dict) (name : string)
    (parent_columns : list json) :
  column_entry item fields name parent_columns ->
  column_row item =
    Ok ([("project_id", get_or_null fields "projectId");
         ("node_id", get_or_null fields "nodeUniqueId");
         ("column_node_id", get_or_null fields "uniqueId");
         ("column_name", JStr (lower name));
         ("description", get_or_null fields "description");
         ("is_primary_key", get_or_null fields "isPrimaryKey");
         ("transformation_type", get_or_null fields "transformationType");
         ("description_origin_column_name",
            get_or_null fields "descriptionOriginColumnName");
         ("description_origin_resource_unique_id",
            get_or_null fields "descriptionOriginResourceUniqueId");
         ("relationship", get_or_null fields "relationship");
         ("parent_columns", get_or_null fields "parentColumns");
         ("child_columns", get_or_null fields "ChildColumns")]
        ++ fan_columns "parent_column_" parent_columns (seq 1 10))%list.
Proof.
  intros (-> & Hn & Hp).
  unfold column_row, py_get. cbn [py_get_default rbind].
  rewrite Hn. cbn [py_lower rbind].
  assert (match dict_get "parentColumns" fields with
          | Some x => x
          | None => JList []
          end = JList parent_columns) as ->.
  { destruct Hp as [->|[-> ->]]; reflexivity. }
  rewrite fan_out_list by apply range_1_11_positive.
  reflexivity.
Qed.

(** The ten fan-out cells of a row, in column order. *)
Definition fan_cells (prefix : string) (r : row) : list (option json) :=
  map (fun i => dict_get (prefix ++ string_of_nat i) r) (seq 1 10).

Lemma fan_cell_truncate_pad (parents : list json) :
  map (fan_cell parents) (seq 1 10)
  = (firstn 10 parents ++ repeat JNull (10 - List.length parents))%list.
Proof.
  do 10 (destruct parents as [|? parents]; [reflexivity|]).
  reflexivity.
Qed.

(** C4. The row of a column-lineage entry carries in [parent_column_1] ..
    [parent_column_10] the entry's [parentColumns] as they come: the first
    ten items in their order, whatever they are, then nulls up to ten. *)
Theorem C4_parent_column_fan_out (item : json) (fields : dict) (name : string)
    (parent_columns : list json) :
  column_entry item fields name parent_columns ->
  exists r,
    column_row item = Ok r /\
    dict_keys r = (column_base_columns ++ parent_column_columns)%list /\
    fan_cells "parent_column_" r
    = map Some (firstn 10 parent_columns
                ++ repeat JNull (10 - List.length parent_columns))%list.
Proof.
  intros He. eexists. split; [exact (column_row_entry He)|].
  split; [reflexivity|].
  rewrite <- fan_cell_truncate_pad. reflexivity.
Qed.

Definition C4_twelve : list json :=
  map JStr ["c01"; "source.x"; "c03"; "c04"; "c05"; "c06";
            "c07"; "c08"; "c09"; "c10"; "c11"; "c12"].

Lemma C4_parent_column_fan_out_witness :
  exists r,
    column_row (JObj [("name", JStr "Total"); ("parentColumns", JList C4_twelve)]) = Ok r /\
    dict_keys r = (column_base_columns ++ parent_column_columns)%list /\
    fan_cells "parent_column_" r
    = map Some (firstn 10 C4_twelve ++ repeat JNull (10 - List.length C4_twelve))%list.
Proof.
  apply (@C4_parent_column_fan_out
           (JObj [("name", JStr "Total"); ("parentColumns", JList C4_twelve)])
           [("name", JStr "Total"); ("parentColumns", JList C4_twelve)]
           "Total" C4_twelve).
  split; [reflexivity|]. split; [reflexivity|]. left. reflexivity.
Defined.

Example C4_twelve_keeps_first_ten :
  exists r,
    column_row (JObj [("name", JStr "Total"); ("parentColumns", JList C4_twelve)]) = Ok r /\
    fan_cells "parent_column_" r
    = map (fun s => Some (JStr s))
          ["c01"; "source.x"; "c03"; "c04"; "c05"; "c06"; "c07"; "c08"; "c09"; "c10"].
Proof. eexists. split; reflexivity. Qed.

Example C4_three_then_nulls :
  exists r,
    column_row (JObj [("name", JStr "Total");
                      ("parentColumns", JList [JStr "b"; JStr "a"; JStr "b"])]) = Ok r /\
    fan_cells "parent_column_" r
    = [Some (JStr "b"); Some (JStr "a"); Some (JStr "b"); Some JNull; Some JNull;
       Some JNull; Some JNull; Some JNull; Some JNull; Some JNull].
Proof. eexists. split; reflexivity. Qed.

(** ** What the column flattener does once the path is there *)

Lemma parse_column_lineage_present (response_data : json) (items : list json) (w : World) :
  has_column_lineage response_data items ->
  parse_column_lineage_to_df response_data w = (w, rmap column_row items).
Proof.
  intros (top & d1 & d2 & -> & H1 & H2 & H3).
  unfold parse_column_lineage_to_df, bind, lift, ret.
  rewrite (@path_guard_present _ _ _ _ _ H1 H2).
  cbn [py_getitem rbind]. rewrite H1. cbn [py_getitem rbind]. rewrite H2.
  cbn [py_getitem rbind]. rewrite H3. cbn [py_iter].
  destruct (rmap column_row items); reflexivity.
Qed.

Lemma rmap_Ok_Forall2 {A B} (f : A -> result B) (l : list A) (bs : list B) :
  rmap f l = Ok bs -> Forall2 (fun a b => f a = Ok b) l bs.
Proof.
  revert bs; induction l as [|a l IH]; simpl; intros bs H.
  - injection H as <-. constructor.
  - destruct (f a) as [b|] eqn:Hb; [|discriminate].
    destruct (rmap f l) as [bs'|]; [|discriminate].
    injection H as <-. constructor; [exact Hb | now apply IH].
Qed.

Lemma dict_get_set_other (k k' : string) (v : json) (d : dict) :
  k <> k' -> dict_get k (dict_set k' v d) = dict_get k d.
Proof.
  intros Hne. induction d as [|[k0 v0] d IH]; simpl.
  - destruct (String.eqb_spec k k'); [contradiction | reflexivity].
  - destruct (String.eqb_spec k' k0) as [<-|Hk0]; simpl.
    + destruct (String.eqb_spec k k'); [contradiction | reflexivity].
    + now rewrite IH.
Qed.

(** A fan-out writes its own columns only. *)
Lemma fan_out_get_other (prefix : string) (parents : json) (k : string) :
  (forall i, prefix ++ string_of_nat i <> k) ->
  forall (range : list nat) (row_data r : dict),
    fan_out prefix parents range row_data = Ok r ->
    dict_get k r = dict_get k row_data.
Proof.
  intros Hk. induction range as [|i range IH]; intros row_data r; cbn [fan_out].
  - now intros [= <-].
  - destruct (py_len parents) as [n|]; cbn [rbind]; [|discriminate].
    destruct (i <=? n)%nat.
    + destruct (py_index parents (i - 1)) as [x|]; cbn [rbind]; [|discriminate].
      intros H. rewrite (IH _ _ H). apply dict_get_set_other. auto.
    + intros H. rewrite (IH _ _ H). apply dict_get_set_other. auto.
Qed.

Lemma column_row_inv (item : json) (r : row) :
  column_row item = Ok r ->
  exists fields name,
    item = JObj fields /\
    dict_get "name" fields = Some (JStr name) /\
    dict_get "child_columns" r = Some (get_or_null fields "ChildColumns").
Proof.
  destruct item as [| | | | |fields]; try discriminate.
  unfold column_row, py_get. cbn [py_get_default rbind].
  destruct (dict_get "name" fields) as [[| | |name| |]|] eqn:Hname; try discriminate.
  cbn [py_lower rbind]. intros H.
  exists fields, name. split; [reflexivity|]. split; [exact Hname|].
  assert (forall i, "parent_column_" ++ string_of_nat i <> "child_columns") as Hk
    by (intros i; discriminate).
  rewrite (@fan_out_get_other _ _ _ Hk _ _ _ H).
  reflexivity.
Qed.

(** ** Child columns *)

Definition lacks_ChildColumns (item : json) : Prop :=
  forall fields, item = JObj fields -> dict_get "ChildColumns" fields = None.

(** C9. The query asks the service for [childColumns]; the flattener reads
    [ChildColumns].  So for a response whose entries have no key
    [ChildColumns], every row the flattener emits has a null
    [child_columns]; and it does emit one row per entry when the entries
    are well formed. *)
Theorem C9_child_columns_always_null (response_data : json) (items : list json) (w : World) :
  has_column_lineage response_data items ->
  Forall lacks_ChildColumns items ->
  contains "childColumns" column_lineage_query = true /\
  contains "ChildColumns" column_lineage_query = false /\
  (forall w' rows,
      parse_column_lineage_to_df response_data w = (w', Ok rows) ->
      Forall (fun r => dict_get "child_columns" r = Some JNull) rows) /\
  (Forall (fun item => exists fields name pcs, column_entry item fields name pcs) items ->
   exists rows,
     parse_column_lineage_to_df response_data w = (w, Ok rows) /\
     List.length rows = List.length items).
Proof.
  intros Hpath Hlack.
  split; [vm_compute; reflexivity|]. split; [vm_compute; reflexivity|].
  rewrite (parse_column_lineage_present w Hpath). split.
  - intros w' rows [= _ Hrows].
    apply rmap_Ok_Forall2 in Hrows. clear Hpath.
    induction Hrows as [|item r items' rows' Hr _ IH]; constructor.
    + destruct (column_row_inv _ Hr) as (fields & name & -> & _ & ->).
      apply Forall_inv in Hlack.
      unfold get_or_null. now rewrite (Hlack fields eq_refl).
    + apply IH. exact (Forall_inv_tail Hlack).
  - intros Hwf.
    destruct (@rmap_Forall2 _ _ column_row (fun _ _ => True) items) as (rows & Hrows & HF).
    { eapply Forall_impl; [|exact Hwf].
      intros item (fields & name & pcs & He).
      eexists. split; [exact (column_row_entry He) | exact I]. }
    exists rows. rewrite Hrows. split; [reflexivity|].
    symmetry. exact (Forall2_length HF).
Qed.

Definition C9_items : list json :=
  [JObj [("name", JStr "Order_ID");
         ("childColumns", JList [JStr "orders_summary.order_id"]);
         ("parentColumns", JList [JStr "stg_orders.id"])]].

Definition C9_response : json :=
  JObj [("data", JObj [("column", JObj [("lineage", JList C9_items)])])].

Lemma C9_child_columns_always_null_witness :
  exists rows,
    parse_column_lineage_to_df C9_response (mkWorld [] []) = (mkWorld [] [], Ok rows) /\
    List.length rows = 1 /\
    Forall (fun r => dict_get "child_columns" r = Some JNull) rows.
Proof.
  assert (has_column_lineage C9_response C9_items) as Hpath.
  { eexists _, _, _.
    split; [reflexivity|]. split; [reflexivity|]. split; reflexivity. }
  assert (Forall lacks_ChildColumns C9_items) as Hlack.
  { repeat constructor. intros fields [= <-]. reflexivity. }
  destruct (@C9_child_columns_always_null C9_response C9_items (mkWorld [] [])
              Hpath Hlack) as (_ & _ & Hnull & Htotal).
  destruct Htotal as (rows & Hrows & Hlen).
  { repeat constructor. eexists _, _, _.
    split; [reflexivity|]. split; [reflexivity|]. left. reflexivity. }
  exists rows. split; [exact Hrows|]. split; [exact Hlen|].
  exact (Hnull _ _ Hrows).
Defined.

(** ** Entries without a name *)

Definition nameless (item : json) : Prop :=
  exists fields,
    item = JObj fields /\
    (dict_get "name" fields = None \/ dict_get "name" fields = Some JNull).

Definition has_string_name (item : json) : Prop :=
  exists fields name, item = JObj fields /\ dict_get "name" fields = Some (JStr name).

Lemma column_row_nameless (item : json) :
  nameless item -> column_row item = Raise (AttributeError "lower").
Proof.
  intros (fields & -> & H).
  unfold column_row, py_get. cbn [py_get_default rbind].
  destruct H as [->| ->]; reflexivity.
Qed.

(** C10. [item.get("name").lower()] is applied to every entry.  With the
    path [data.column.lineage] present, an entry without a [name] (or with
    a null one) makes the row builder raise [AttributeError] and the
    flattener raise instead of returning a table; the flattener returns a
    table only if every entry has a string [name]. *)
Theorem C10_missing_name_raises (response_data : json) (items : list json) (w : World) :
  has_column_lineage response_data items ->
  (Exists nameless items ->
   Exists (fun item => column_row item = Raise (AttributeError "lower")) items /\
   exists e, parse_column_lineage_to_df response_data w = (w, Raise e)) /\
  (forall w' rows,
      parse_column_lineage_to_df response_data w = (w', Ok rows) ->
      Forall has_string_name items).
Proof.
  intros Hpath. rewrite (parse_column_lineage_present w Hpath). split.
  - intros Hex.
    assert (Exists (fun item => column_row item = Raise (AttributeError "lower")) items)
      as Hraise.
    { eapply Exists_impl; [|exact Hex]. exact column_row_nameless. }
    split; [exact Hraise|].
    destruct (@rmap_Raise _ _ column_row items) as [e He].
    { eapply Exists_impl; [|exact Hraise]. intros a Ha. eexists. exact Ha. }
    exists e. now rewrite He.
  - intros w' rows [= _ Hrows].
    apply rmap_Ok_Forall2 in Hrows. clear Hpath.
    induction Hrows as [|item r items' rows' Hr _ IH]; [constructor|].
    constructor; [|exact IH].
    destruct (column_row_inv _ Hr) as (fields & name & -> & Hn & _).
    now exists fields, name.
Qed.

Definition C10_items : list json :=
  [JObj [("name", JStr "id"); ("parentColumns", JList [])];
   JObj [("uniqueId", JStr "model.shop.orders.total"); ("parentColumns", JList [])]].

Definition C10_response : json :=
  JObj [("data", JObj [("column", JObj [("lineage", JList C10_items)])])].

Lemma C10_missing_name_raises_witness :
  Exists (fun item => column_row item = Raise (AttributeError "lower")) C10_items /\
  exists e, parse_column_lineage_to_df C10_response (mkWorld [] [])
            = (mkWorld [] [], Raise e).
Proof.
  apply (@C10_missing_name_raises C10_response C10_items (mkWorld [] [])).
  - eexists _, _, _.
    split; [reflexivity|]. split; [reflexivity|]. split; reflexivity.
  - apply Exists_cons_tl, Exists_cons_hd.
    eexists. split; [reflexivity|]. left. reflexivity.
Defined.

Example C10_raises_AttributeError (w : World) :
  parse_column_lineage_to_df C10_response w = (w, Raise (AttributeError "lower")).
Proof. reflexivity. Qed.

Example C10_null_name_raises (w : World) :
  parse_column_lineage_to_df
    (JObj [("data", JObj [("column", JObj [("lineage",
       JList [JObj [("name", JNull)]])])])]) w
  = (w, Raise (AttributeError "lower")).
Proof. reflexivity. Qed.

(** ** [execute_query]: what is sent and what comes back *)

(** The text [execute_query] posts. *)
Definition sent_query (env_id : option string) (query : string)
    (variables : option dict) : string :=
  substitute (effective_variables env_id variables) query.

Definition sent (w : World) (query : string) : World :=
  mkWorld (requests w ++ [query])%list (stdout w).

Definition printing (w : World) (lines : list printed) : World :=
  mkWorld (requests w) (stdout w ++ lines)%list.

Lemma execute_query_unfold (env_id : option string)
    (post : list string -> string -> result Response)
    (query : string) (variables : option dict) (w : World) :
  execute_query env_id post query variables w =
    match post (requests w) (sent_query env_id query variables) with
    | Ok response => handle_response response (sent w (sent_query env_id query variables))
    | Raise e => (sent w (sent_query env_id query variables), Raise e)
    end.
Proof.
  unfold execute_query, bind, requests_post, sent, sent_query.
  destruct (post (requests w) _); reflexivity.
Qed.

Definition query_failed (response : Response) : list printed :=
  [Text ("Query failed with status code " ++ string_of_Z (status_code response));
   Text (text response)].

(** C7, as the code has it.  When the POST hands back a response, the
    client returns what [response.json()] gives if the status is exactly
    200; for any other status it prints the status code and the body text
    and returns the empty mapping, raising nothing. *)
Theorem C7_status_200_or_empty (env_id : option string)
    (post : list string -> string -> result Response)
    (query : string) (variables : option dict) (w : World) (response : Response) :
  post (requests w) (sent_query env_id query variables) = Ok response ->
  let w1 := sent w (sent_query env_id query variables) in
  (status_code response = 200%Z ->
   execute_query env_id post query variables w = (w1, json_body response)) /\
  (status_code response <> 200%Z ->
   execute_query env_id post query variables w
   = (printing w1 (query_failed response), Ok (JObj []))).
Proof.
  intros Hpost w1. rewrite execute_query_unfold, Hpost.
  unfold handle_response, lift, bind, print, ret. split; intros Hs.
  - rewrite Hs. reflexivity.
  - destruct (Z.eqb_spec (status_code response) 200); [contradiction|].
    unfold printing, query_failed. cbn [requests stdout].
    now rewrite <- app_assoc.
Qed.

Definition C7_body : json := JObj [("data", JObj [("environment", JNull)])].

Definition C7_post (status : Z) : list string -> string -> result Response :=
  fun _ _ => Ok (mkResponse status "body" (Ok C7_body)).

Lemma C7_status_200_or_empty_witness :
  execute_query (Some "env123") (C7_post 200) "{ q }" None (mkWorld [] [])
  = (mkWorld ["{ q }"] [], Ok C7_body) /\
  execute_query (Some "env123") (C7_post 503) "{ q }" None (mkWorld [] [])
  = (mkWorld ["{ q }"] [Text "Query failed with status code 503"; Text "body"],
     Ok (JObj [])).
Proof.
  split.
  - apply (@C7_status_200_or_empty (Some "env123") (C7_post 200) "{ q }" None
             (mkWorld [] []) (mkResponse 200 "body" (Ok C7_body)) eq_refl).
    reflexivity.
  - apply (@C7_status_200_or_empty (Some "env123") (C7_post 503) "{ q }" None
             (mkWorld [] []) (mkResponse 503 "body" (Ok C7_body)) eq_refl).
    discriminate.
Defined.

(** C7 as stated fails on the other 2xx codes: a 201 whose body decodes
    is treated as a failure, and the body is not returned. *)
Lemma C7_status_201_is_discarded :
  (200 <= 201 < 300)%Z /\
  C7_post 201 [] "{ q }" = Ok (mkResponse 201 "body" (Ok C7_body)) /\
  execute_query (Some "env123") (C7_post 201) "{ q }" None (mkWorld [] [])
  = (mkWorld ["{ q }"] [Text "Query failed with status code 201"; Text "body"],
     Ok (JObj [])) /\
  Ok (JObj []) <> Ok C7_body.
Proof.
  split; [lia|]. split; [reflexivity|]. split; [reflexivity|]. discriminate.
Qed.

(** ** Textual substitution *)

Definition cons_head (c : ascii) (pieces : list string) : list string :=
  match pieces with
  | p :: ps => String c p :: ps
  | [] => [String c EmptyString]
  end.

(** The pieces of [s] between the occurrences of [old] met by a scan from
    the left: [s.split(old)] for a non-empty [old]. *)
Fixpoint split_from (fuel : nat) (old s : string) : list string :=
  match fuel with
  | O => [s]
  | S fuel' =>
      match strip_prefix old s with
      | Some rest => EmptyString :: split_from fuel' old rest
      | None =>
          match s with
          | EmptyString => [EmptyString]
          | String c r => cons_head c (split_from fuel' old r)
          end
      end
  end.

Definition str_split (old s : string) : list string :=
  split_from (String.length s) old s.

Lemma split_from_not_nil (fuel : nat) (old s : string) : split_from fuel old s <> [].
Proof.
  revert s; induction fuel as [|fuel IH]; intros s; simpl; [discriminate|].
  destruct (strip_prefix old s); [discriminate|].
  destruct s as [|c r]; [discriminate|].
  specialize (IH r). destruct (split_from fuel old r); [contradiction | discriminate].
Qed.

Lemma join_cons (sep p : string) (ps : list string) :
  ps <> [] -> join sep (p :: ps) = p ++ sep ++ join sep ps.
Proof. destruct ps; [contradiction | reflexivity]. Qed.

Lemma join_cons_head (sep : string) (c : ascii) (ps : list string) :
  ps <> [] -> join sep (cons_head c ps) = String c (join sep ps).
Proof. destruct ps as [|p [|q ps]]; [contradiction | reflexivity | reflexivity]. Qed.

Lemma string_length_app (a b : string) :
  String.length (a ++ b) = String.length a + String.length b.
Proof. induction a as [|c a IH]; simpl; [reflexivity | now rewrite IH]. Qed.

Lemma strip_prefix_shorter (c : ascii) (old s rest : string) :
  strip_prefix (String c old) s = Some rest -> String.length rest < String.length s.
Proof.
  intros H. rewrite (strip_prefix_app _ _ H), string_length_app. simpl. lia.
Qed.

Section Replace.

Variable first : ascii.
Variable more : string.

(** A placeholder is never empty: it starts with the dollar sign. *)
Let old : string := String first more.

Lemma join_split_from (fuel : nat) (s : string) :
  String.length s <= fuel -> join old (split_from fuel old s) = s.
Proof.
  revert s; induction fuel as [|fuel IH]; intros s Hlen.
  - reflexivity.
  - cbn [split_from].
    destruct (strip_prefix old s) as [rest|] eqn:Hs.
    + rewrite join_cons by apply split_from_not_nil.
      rewrite IH by (apply strip_prefix_shorter in Hs; lia).
      now rewrite (strip_prefix_app _ _ Hs).
    + destruct s as [|c r]; [reflexivity|].
      rewrite join_cons_head by apply split_from_not_nil.
      rewrite IH by (simpl in Hlen; lia). reflexivity.
Qed.

Lemma replace_split_from (new : string) (fuel : nat) (s : string) :
  String.length s <= fuel ->
  replace_from fuel old new s = join new (split_from fuel old s).
Proof.
  revert s; induction fuel as [|fuel IH]; intros s Hlen.
  - reflexivity.
  - cbn [split_from replace_from].
    destruct (strip_prefix old s) as [rest|] eqn:Hs.
    + rewrite join_cons by apply split_from_not_nil.
      rewrite IH by (apply strip_prefix_shorter in Hs; lia). reflexivity.
    + destruct s as [|c r]; [reflexivity|].
      rewrite join_cons_head by apply split_from_not_nil.
      rewrite IH by (simpl in Hlen; lia). reflexivity.
Qed.

Lemma prefix_app (p x y : string) :
  String.prefix p x = true -> String.prefix p (x ++ y) = true.
Proof.
  revert x; induction p as [|a p IH]; intros x.
  { intros _. now destruct (x ++ y). }
  destruct x as [|b x]; simpl; [discriminate|].
  destruct (Ascii.ascii_dec a b); [apply IH | discriminate].
Qed.

Lemma join_head (sep p : string) (ps : list string) :
  exists tail, join sep (p :: ps) = p ++ tail.
Proof.
  destruct ps as [|q ps]; simpl.
  - exists EmptyString. induction p as [|c p IH]; simpl; [reflexivity | now rewrite <- IH].
  - eexists. reflexivity.
Qed.

(** No piece holds an occurrence of the placeholder. *)
Lemma split_from_clean (fuel : nat) (s : string) :
  String.length s <= fuel ->
  Forall (fun p => contains old p = false) (split_from fuel old s).
Proof.
  revert s; induction fuel as [|fuel IH]; intros s Hlen.
  - destruct s; [|simpl in Hlen; lia]. constructor; [reflexivity | constructor].
  - cbn [split_from].
    destruct (strip_prefix old s) as [rest|] eqn:Hs.
    + constructor; [reflexivity|].
      apply IH. apply strip_prefix_shorter in Hs. lia.
    + destruct s as [|c r]; [constructor; [reflexivity | constructor]|].
      assert (String.length r <= fuel) as Hr by (simpl in Hlen; lia).
      pose proof (IH r Hr) as Hclean.
      pose proof (@join_split_from fuel r Hr) as Hjoin.
      destruct (split_from fuel old r) as [|p ps] eqn:Hsplit;
        [exfalso; exact (split_from_not_nil _ _ _ Hsplit)|].
      cbn [cons_head].
      pose proof (Forall_inv Hclean) as Hp. cbn beta in Hp.
      constructor; [|exact (Forall_inv_tail Hclean)].
      cbn [contains]. rewrite Hp, orb_false_r.
      destruct (String.prefix old (String c p)) eqn:Hpre; [|reflexivity].
      destruct (join_head old p ps) as [tail Htail].
      assert (String.prefix old (String c r) = true) as Hfull.
      { rewrite <- Hjoin, Htail. exact (@prefix_app _ _ tail Hpre). }
      apply strip_prefix_prefix in Hfull. destruct Hfull as [rest Hrest].
      congruence.
Qed.

(** [s.replace(old, new)] cuts [s] at the occurrences of [old] and glues
    the pieces back with [new]. *)
Lemma str_replace_pieces (new s : string) :
  join old (str_split old s) = s /\
  Forall (fun p => contains old p = false) (str_split old s) /\
  str_replace old new s = join new (str_split old s).
Proof.
  unfold str_split. split; [|split].
  - now apply join_split_from.
  - now apply split_from_clean.
  - unfold str_replace, old. now apply replace_split_from.
Qed.

End Replace.

(** One pass of the substitution loop, said with pieces: the text is cut at
    the occurrences of [$key] and glued back with the JSON literal. *)
Definition substitute_pieces (q : string) (kv : string * json) : string :=
  join (json_dumps (snd kv)) (str_split ("$" ++ fst kv) q).

Lemma substitute_by_pieces (variables : dict) (query : string) :
  substitute variables query = fold_left substitute_pieces variables query.
Proof.
  unfold substitute. revert query.
  induction variables as [|[key value] variables IH]; intros query; [reflexivity|].
  cbn [fold_left fst snd]. rewrite IH. f_equal.
  unfold substitute_pieces. cbn [fst snd].
  exact (proj2 (proj2 (str_replace_pieces "$"%char key (json_dumps value) query))).
Qed.

(** C8. The client sends one request, and the text it sends is the
    template after the substitution loop: the variables of the merged set
    are taken in order, and each pass cuts the text at every occurrence of
    [$key] (no piece keeps one) and glues the pieces back with
    [json.dumps(value)].  A string goes in between double quotes, a number
    or a list as its JSON literal. *)
Theorem C8_textual_substitution (env_id : option string)
    (post : list string -> string -> result Response)
    (query : string) (variables : option dict) (w : World) :
  execute_query env_id post query variables w =
    match post (requests w) (sent_query env_id query variables) with
    | Ok response => handle_response response (sent w (sent_query env_id query variables))
    | Raise e => (sent w (sent_query env_id query variables), Raise e)
    end /\
  requests (fst (execute_query env_id post query variables w))
  = (requests w ++ [sent_query env_id query variables])%list /\
  sent_query env_id query variables
  = fold_left substitute_pieces (effective_variables env_id variables) query /\
  (forall (key : string) (q : string),
      join ("$" ++ key) (str_split ("$" ++ key) q) = q /\
      Forall (fun p => contains ("$" ++ key) p = false) (str_split ("$" ++ key) q)) /\
  (forall s : string, json_dumps (JStr s) = dquote ++ escape s ++ dquote) /\
  escape "env123" = "env123" /\
  sent_query (Some "env123") "environment(id: $environmentId) $environmentId" None
  = "environment(id: " ++ dquote ++ "env123" ++ dquote ++ ") "
    ++ dquote ++ "env123" ++ dquote /\
  json_dumps (JNum 42) = "42" /\
  json_dumps (JList [JNum 1; JStr "a"; JNull]) = "[1, " ++ dquote ++ "a" ++ dquote ++ ", null]".
Proof.
  split; [apply execute_query_unfold|].
  split.
  { rewrite execute_query_unfold.
    destruct (post (requests w) _) as [response|e]; [|reflexivity].
    unfold handle_response, lift, bind, print, ret.
    destruct (Z.eqb (status_code response) 200); reflexivity. }
  split; [apply substitute_by_pieces|].
  split.
  { intros key q.
    destruct (str_replace_pieces "$"%char key EmptyString q) as (Hjoin & Hclean & _).
    split; assumption. }
  repeat split; reflexivity.
Qed.

Example C8_model_query_sent :
  contains ("environment(id: " ++ dquote ++ "env123" ++ dquote ++ ")")
           (sent_query (Some "env123") model_lineage_query None) = true /\
  contains "$environmentId" (sent_query (Some "env123") model_lineage_query None) = false.
Proof. split; vm_compute; reflexivity. Qed.

Example C8_column_query_sent :
  let q := sent_query (Some "env123") column_lineage_query
             (Some [("nodeUniqueId", JStr "model.shop.orders")]) in
  contains ("column(environmentId: " ++ dquote ++ "env123" ++ dquote ++ ")") q = true /\
  contains ("lineage(nodeUniqueId: " ++ dquote ++ "model.shop.orders" ++ dquote ++ ")") q
  = true /\
  contains "$" q = false.
Proof. repeat split; vm_compute; reflexivity. Qed.

(** The passes are sequential, so a placeholder whose name extends an
    earlier variable's name is consumed by the earlier pass. *)
Example C8_shorter_name_first :
  sent_query (Some "env123") "$ab" (Some [("a", JNum 1); ("ab", JNum 2)]) = "1b".
Proof. reflexivity. Qed.

(** ** Computations that only print *)

Definition w0 : World := mkWorld [] [].

(** [m] sends nothing and does not look at the world: it appends its lines
    and returns its value. *)
Definition silent {A} (m : io A) : Prop :=
  forall w, m w = (printing w (stdout (fst (m w0))), snd (m w0)).

Lemma printing_nil (w : World) : printing w [] = w.
Proof. destruct w as [rq out]. unfold printing. cbn. now rewrite app_nil_r. Qed.

Lemma printing_printing (w : World) (a b : list printed) :
  printing (printing w a) b = printing w (a ++ b)%list.
Proof. unfold printing. cbn. now rewrite app_assoc. Qed.

Lemma silent_ret {A} (a : A) : silent (ret a).
Proof. intros w. unfold ret. cbn. now rewrite printing_nil. Qed.

Lemma silent_lift {A} (r : result A) : silent (lift r).
Proof. intros w. unfold lift. cbn. now rewrite printing_nil. Qed.

Lemma silent_print (line : printed) : silent (print line).
Proof. intros w. reflexivity. Qed.

Lemma silent_bind {A B} (m : io A) (k : A -> io B) :
  silent m -> (forall a, silent (k a)) -> silent (bind m k).
Proof.
  intros Hm Hk w. unfold bind.
  rewrite (Hm w).
  destruct (m w0) as [[rq out] [a|e]] eqn:Hm0; cbn [fst snd stdout].
  - pose proof (Hm w0) as H0. rewrite Hm0 in H0. cbn in H0.
    injection H0 as ->.
    rewrite (Hk a (printing w out)), (Hk a (mkWorld [] out)).
    cbn [fst snd]. unfold printing at 3. cbn [requests stdout].
    rewrite printing_printing. reflexivity.
  - reflexivity.
Qed.

Create HintDb silent.
#[local] Hint Resolve silent_ret silent_lift silent_print : silent.

Lemma silent_handle_response (response : Response) : silent (handle_response response).
Proof.
  unfold handle_response.
  destruct (Z.eqb (status_code response) 200); auto with silent.
  repeat (apply silent_bind; [auto with silent | intros ?]); auto with silent.
Qed.

Lemma silent_parse_column (response_data : json) :
  silent (parse_column_lineage_to_df response_data).
Proof.
  unfold parse_column_lineage_to_df.
  apply silent_bind; [auto with silent|]. intros [|].
  - apply silent_bind; auto with silent.
  - repeat (apply silent_bind; [auto with silent | intros ?]); auto with silent.
Qed.

Lemma silent_parse_model (response_data : json) :
  silent (parse_model_lineage_to_df response_data).
Proof.
  unfold parse_model_lineage_to_df.
  apply silent_bind; [auto with silent|]. intros [|].
  - apply silent_bind; auto with silent.
  - repeat (apply silent_bind; [auto with silent | intros ?]); auto with silent.
Qed.

(** ** One model of the fan-out *)

(** What follows the POST of a column-lineage query: the status test, then
    the flattener. *)
Definition after_post (outcome : result Response) : io DataFrame :=
  (response <-- lift outcome ;;
   column_response <-- handle_response response ;;
   parse_column_lineage_to_df column_response)%io.

Definition column_prints (outcome : result Response) : list printed :=
  stdout (fst (after_post outcome w0)).

Definition column_result (outcome : result Response) : result DataFrame :=
  snd (after_post outcome w0).

(** The table one model adds: what the flattener returned, or nothing when
    the fetch or the flattener raised. *)
Definition column_table (outcome : result Response) : DataFrame :=
  match column_result outcome with
  | Ok df => df
  | Raise _ => []
  end.

Lemma after_post_run (outcome : result Response) (w : World) :
  after_post outcome w = (printing w (column_prints outcome), column_result outcome).
Proof.
  assert (silent (after_post outcome)) as H.
  { unfold after_post. apply silent_bind; [auto with silent|]. intros response.
    apply silent_bind; [apply silent_handle_response|]. intros body.
    apply silent_parse_column. }
  exact (H w).
Qed.

(** The text of the column-lineage query for one node identifier. *)
Definition column_query_text (env_id : option string) (unique_id : json) : string :=
  sent_query env_id column_lineage_query (Some [("nodeUniqueId", unique_id)]).

Lemma execute_query_then {A} (env_id : option string)
    (post : list string -> string -> result Response)
    (query : string) (variables : option dict) (k : json -> io A) (w : World) :
  bind (execute_query env_id post query variables) k w
  = match post (requests w) (sent_query env_id query variables) with
    | Ok response =>
        bind (handle_response response) k (sent w (sent_query env_id query variables))
    | Raise e => (sent w (sent_query env_id query variables), Raise e)
    end.
Proof.
  unfold bind at 1. rewrite execute_query_unfold.
  destruct (post (requests w) _) as [response|e]; reflexivity.
Qed.

Lemma fetch_and_parse_run (env_id : option string)
    (post : list string -> string -> result Response) (unique_id : json) (w : World) :
  bind (query_column_lineage env_id post unique_id) parse_column_lineage_to_df w
  = after_post (post (requests w) (column_query_text env_id unique_id))
               (sent w (column_query_text env_id unique_id)).
Proof.
  unfold query_column_lineage, column_query_text.
  rewrite execute_query_then.
  generalize (sent_query env_id column_lineage_query (Some [("nodeUniqueId", unique_id)])).
  intros q. unfold after_post, lift.
  destruct (post (requests w) q) as [response|e]; reflexivity.
Qed.

Definition keep_nonempty (acc : list DataFrame) (df : DataFrame) : list DataFrame :=
  if df_empty df then acc else (acc ++ [df])%list.

#[local] Opaque column_lineage_query model_lineage_query.

Lemma bind_assoc {A B C} (m : io A) (f : A -> io B) (g : B -> io C) (w : World) :
  bind m (fun a => bind (f a) g) w = bind (bind m f) g w.
Proof. unfold bind. destruct (m w) as [w1 [a|e]]; reflexivity. Qed.

(** The pass for a row whose identifier is truthy: one request, then either
    the table is kept (when it has rows) or the exception is printed with
    the identifier; the pass itself never raises. *)
Lemma process_model_truthy (env_id : option string)
    (post : list string -> string -> result Response)
    (model : row) (unique_id : json) (acc : list DataFrame) (w : World) :
  dict_get "node_id" model = Some unique_id ->
  truthy unique_id = true ->
  let q := column_query_text env_id unique_id in
  let outcome := post (requests w) q in
  process_model env_id post model acc w =
    match column_result outcome with
    | Ok df => (printing (sent w q) (column_prints outcome), Ok (keep_nonempty acc df))
    | Raise e =>
        (printing (sent w q) (column_prints outcome ++ [ErrorProcessingModel unique_id e]),
         Ok acc)
    end.
Proof.
  intros Hid Htruthy q outcome.
  unfold process_model. unfold bind at 1, lift. cbn [py_getitem].
  rewrite Hid, Htruthy. cbn [negb].
  unfold try_except.
  rewrite (bind_assoc (query_column_lineage env_id post unique_id)
             parse_column_lineage_to_df
             (fun column_df =>
                if negb (df_empty column_df)
                then ret (acc ++ [column_df])%list
                else ret acc) w).
  unfold bind at 1.
  rewrite fetch_and_parse_run, after_post_run.
  fold q. fold outcome.
  destruct (column_result outcome) as [df|e].
  - unfold keep_nonempty, ret. destruct (df_empty df); reflexivity.
  - unfold print, bind, ret, printing, sent. cbn [requests stdout].
    now rewrite <- app_assoc.
Qed.

Lemma process_model_falsy (env_id : option string)
    (post : list string -> string -> result Response)
    (model : row) (unique_id : json) (acc : list DataFrame) (w : World) :
  dict_get "node_id" model = Some unique_id ->
  truthy unique_id = false ->
  process_model env_id post model acc w = (w, Ok acc).
Proof.
  intros Hid Hfalsy.
  unfold process_model. unfold bind, lift. cbn [py_getitem].
  now rewrite Hid, Hfalsy.
Qed.

(** ** The fan-out over the model table *)

Definition node_id_of (model : row) : json := get_or_null model "node_id".

(** The test [if not unique_id: continue], read on the row. *)
Definition has_usable_id (model : row) : bool := truthy (node_id_of model).

(** The identifiers the loop queries, in the table's order. *)
Definition queried_ids (model_df : DataFrame) : list json :=
  map node_id_of (filter has_usable_id model_df).

(** A row of the model table: it has a [node_id] cell, holding a string or
    null (the service's [uniqueId]; pandas keeps such cells as they are). *)
Definition model_table_row (model : row) : Prop :=
  exists v, dict_get "node_id" model = Some v /\ (v = JNull \/ exists s, v = JStr s).

(** The per-model tables, one per queried identifier; each request sees
    the requests sent before it. *)
Fixpoint model_tables (env_id : option string)
    (post : list string -> string -> result Response)
    (history : list string) (ids : list json) : list DataFrame :=
  match ids with
  | [] => []
  | unique_id :: ids' =>
      let q := column_query_text env_id unique_id in
      column_table (post history q)
      :: model_tables env_id post (history ++ [q])%list ids'
  end.

Definition nonempty_tables (tables : list DataFrame) : list DataFrame :=
  filter (fun df => negb (df_empty df)) tables.

Lemma process_models_app (env_id : option string)
    (post : list string -> string -> result Response)
    (before after : DataFrame) (acc : list DataFrame) (w : World) :
  process_models env_id post (before ++ after)%list acc w
  = bind (process_models env_id post before acc) (process_models env_id post after) w.
Proof.
  revert acc w. induction before as [|model before IH]; intros acc w.
  - reflexivity.
  - cbn [app process_models]. unfold bind.
    destruct (process_model env_id post model acc w) as [w1 [acc1|e]]; [|reflexivity].
    rewrite IH. reflexivity.
Qed.

Lemma queried_ids_cons (model : row) (model_df : DataFrame) (v : json) :
  dict_get "node_id" model = Some v ->
  queried_ids (model :: model_df)
  = if truthy v then v :: queried_ids model_df else queried_ids model_df.
Proof.
  intros Hv.
  assert (node_id_of model = v) as Hid
    by (unfold node_id_of, get_or_null; now rewrite Hv).
  unfold queried_ids. cbn [filter].
  unfold has_usable_id at 1. rewrite Hid.
  destruct (truthy v); [|reflexivity].
  cbn [map]. now rewrite Hid.
Qed.

(** The loop never raises; it sends one column query per usable identifier
    and gathers the tables that have rows. *)
Lemma process_models_run (env_id : option string)
    (post : list string -> string -> result Response) (model_df : DataFrame) :
  Forall model_table_row model_df ->
  forall (acc : list DataFrame) (w : World),
  exists out,
    process_models env_id post model_df acc w
    = (mkWorld (requests w ++ map (column_query_text env_id) (queried_ids model_df))%list
               (stdout w ++ out)%list,
       Ok (acc ++ nonempty_tables
                    (model_tables env_id post (requests w) (queried_ids model_df)))%list).
Proof.
  induction 1 as [|model model_df (v & Hv & Hkind) _ IH]; intros acc w.
  - exists []. cbn. unfold ret. rewrite !app_nil_r. now destruct w.
  - cbn [process_models]. unfold bind.
    rewrite (@queried_ids_cons model model_df v Hv).
    destruct (truthy v) eqn:Htruthy.
    + rewrite (@process_model_truthy env_id post model v acc w Hv Htruthy).
      cbn [map model_tables].
      set (q := column_query_text env_id v).
      set (outcome := post (requests w) q).
      unfold nonempty_tables. cbn [filter]. unfold column_table.
      destruct (column_result outcome) as [df|e].
      * destruct (IH (keep_nonempty acc df) (printing (sent w q) (column_prints outcome)))
          as [out ->].
        exists (column_prints outcome ++ out)%list.
        unfold printing, sent. cbn [requests stdout].
        rewrite <- !app_assoc. cbn [app].
        unfold keep_nonempty. destruct (df_empty df); cbn [negb];
          rewrite <- ?app_assoc; reflexivity.
      * destruct (IH acc (printing (sent w q)
                            (column_prints outcome ++ [ErrorProcessingModel v e])))
          as [out ->].
        exists ((column_prints outcome ++ [ErrorProcessingModel v e]) ++ out)%list.
        unfold printing, sent. cbn [requests stdout df_empty negb].
        rewrite <- !app_assoc. reflexivity.
    + rewrite (@process_model_falsy env_id post model v acc w Hv Htruthy).
      apply IH.
Qed.

Lemma has_usable_id_spec (model : row) :
  model_table_row model ->
  (has_usable_id model = true <->
   exists s, s <> EmptyString /\ dict_get "node_id" model = Some (JStr s)).
Proof.
  intros (v & Hv & Hkind).
  unfold has_usable_id, node_id_of, get_or_null. rewrite Hv.
  destruct Hkind as [->|[s ->]]; cbn [truthy].
  - split; [discriminate | intros (s & _ & [=])].
  - destruct (String.eqb_spec s "") as [->|Hne]; cbn [negb].
    + split; [discriminate | intros (s & Hs & [= <-]); contradiction].
    + split; [intros _; now exists s | reflexivity].
Qed.

Lemma execute_query_requests (env_id : option string)
    (post : list string -> string -> result Response)
    (query : string) (variables : option dict) (w w1 : World) (r : result json) :
  execute_query env_id post query variables w = (w1, r) ->
  requests w1 = (requests w ++ [sent_query env_id query variables])%list.
Proof.
  rewrite execute_query_unfold.
  destruct (post (requests w) _) as [response|e].
  - rewrite (silent_handle_response response (sent w _)).
    now intros [= <- _].
  - now intros [= <- _].
Qed.

(** C5, as the code has it.  Given the model table, the build sends one
    column-lineage query per row whose node identifier is a non-empty
    string (null and empty identifiers are skipped), in the table's order,
    right after the model query; it returns the concatenation of the
    per-model tables that have rows, in that order, which is the empty
    table when none has. *)
Theorem C5_one_query_per_usable_id (env_id : option string)
    (post : list string -> string -> result Response)
    (w w1 w2 : World) (model_response : json) (model_df : DataFrame) :
  query_model_lineage env_id post w = (w1, Ok model_response) ->
  parse_model_lineage_to_df model_response w1 = (w2, Ok model_df) ->
  Forall model_table_row model_df ->
  let ids := queried_ids model_df in
  let tables := model_tables env_id post (requests w2) ids in
  Forall (fun model =>
            has_usable_id model = true <->
            exists s, s <> EmptyString /\ dict_get "node_id" model = Some (JStr s))
         model_df /\
  List.length ids = List.length (filter has_usable_id model_df) /\
  requests w2 = (requests w ++ [sent_query env_id model_lineage_query None])%list /\
  exists w',
    build_comprehensive_column_lineage env_id post w
    = (w', Ok (pd_concat (nonempty_tables tables))) /\
    requests w' = (requests w2 ++ map (column_query_text env_id) ids)%list.
Proof.
  intros Hquery Hparse Hrows ids tables.
  split. { eapply Forall_impl; [|exact Hrows]. exact has_usable_id_spec. }
  split. { unfold ids, queried_ids. apply length_map. }
  split.
  { pose proof (silent_parse_model model_response w1) as Hsilent.
    rewrite Hparse in Hsilent. injection Hsilent as -> _.
    cbn [requests printing].
    exact (@execute_query_requests env_id post model_lineage_query None w w1 _ Hquery). }
  unfold build_comprehensive_column_lineage, bind.
  rewrite Hquery, Hparse.
  destruct model_df as [|model models].
  - cbn [df_empty]. unfold print, ret. eexists. split; [reflexivity|].
    cbn [requests]. now rewrite app_nil_r.
  - cbn [df_empty].
    destruct (@process_models_run env_id post (model :: models) Hrows [] w2) as [out ->].
    cbn [app]. fold ids. fold tables.
    eexists. split.
    + destruct (nonempty_tables tables); reflexivity.
    + destruct (nonempty_tables tables); reflexivity.
Qed.

(** A service for the examples: the model query gets three models, of
    which one has a null identifier and one an empty one; a column query
    gets one column. *)
Definition C5_model_response : json :=
  JObj [("data", JObj [("environment", JObj [("definition", JObj [("lineage",
    JList [JObj [("uniqueId", JStr "model.shop.orders"); ("name", JStr "orders")];
           JObj [("uniqueId", JNull); ("name", JStr "ghost")];
           JObj [("uniqueId", JStr EmptyString); ("name", JStr "blank")]])])])])].

Definition C5_column_response : json :=
  JObj [("data", JObj [("column", JObj [("lineage",
    JList [JObj [("name", JStr "ID"); ("nodeUniqueId", JStr "model.shop.orders");
                 ("parentColumns", JList [JStr "stg_orders.id"])]])])])].

Definition C5_post (history : list string) (query : string) : result Response :=
  if contains "query Environment" query
  then Ok (mkResponse 200 "ok" (Ok C5_model_response))
  else Ok (mkResponse 200 "ok" (Ok C5_column_response)).

Definition C5_model_df : DataFrame :=
  match snd (parse_model_lineage_to_df C5_model_response w0) with
  | Ok df => df
  | Raise _ => []
  end.

Definition C5_w1 : World :=
  mkWorld [sent_query (Some "env123") model_lineage_query None] [].

Lemma C5_model_df_rows : Forall model_table_row C5_model_df.
Proof.
  vm_compute.
  constructor; [eexists; split; [reflexivity | right; eexists; reflexivity]|].
  constructor; [eexists; split; [reflexivity | left; reflexivity]|].
  constructor; [eexists; split; [reflexivity | right; eexists; reflexivity]|].
  constructor.
Qed.

Lemma C5_one_query_per_usable_id_witness :
  exists w',
    build_comprehensive_column_lineage (Some "env123") C5_post w0
    = (w', Ok (pd_concat (nonempty_tables
                 (model_tables (Some "env123") C5_post (requests C5_w1)
                               (queried_ids C5_model_df))))) /\
    requests w'
    = (requests C5_w1
       ++ map (column_query_text (Some "env123")) (queried_ids C5_model_df))%list.
Proof.
  assert (query_model_lineage (Some "env123") C5_post w0 = (C5_w1, Ok C5_model_response))
    as Hquery by (vm_compute; reflexivity).
  assert (parse_model_lineage_to_df C5_model_response C5_w1 = (C5_w1, Ok C5_model_df))
    as Hparse by (vm_compute; reflexivity).
  exact (proj2 (proj2 (proj2
    (@C5_one_query_per_usable_id (Some "env123") C5_post w0 C5_w1 C5_w1
       C5_model_response C5_model_df Hquery Hparse C5_model_df_rows)))).
Defined.

Definition json_is_null (v : json) : bool :=
  match v with JNull => true | _ => false end.

(** C5 as stated counts the non-null identifiers; the loop tests
    truthiness.  Here two of the three rows have a non-null identifier,
    one of them the empty string, and one column query is sent. *)
Lemma C5_empty_identifier_is_skipped :
  parse_model_lineage_to_df C5_model_response C5_w1 = (C5_w1, Ok C5_model_df) /\
  map node_id_of C5_model_df = [JStr "model.shop.orders"; JNull; JStr EmptyString] /\
  List.length (filter (fun v => negb (json_is_null v)) (map node_id_of C5_model_df)) = 2 /\
  requests (fst (build_comprehensive_column_lineage (Some "env123") C5_post w0))
  = [sent_query (Some "env123") model_lineage_query None;
     column_query_text (Some "env123") (JStr "model.shop.orders")].
Proof.
  split; [vm_compute; reflexivity|].
  split; [vm_compute; reflexivity|].
  split; vm_compute; reflexivity.
Qed.

Example C5_result :
  exists r,
    snd (build_comprehensive_column_lineage (Some "env123") C5_post w0) = Ok [r] /\
    dict_get "column_name" r = Some (JStr "id") /\
    dict_get "parent_column_1" r = Some (JStr "stg_orders.id").
Proof.
  match eval vm_compute in
        (snd (build_comprehensive_column_lineage (Some "env123") C5_post w0)) with
  | Ok [?r] => exists r
  end.
  split; [vm_compute; reflexivity|].
  split; vm_compute; reflexivity.
Qed.

(** * Further properties of the client *)

(** ** Column names *)






Example lower_Order_ID : lower "Order_ID" = "order_id".
Proof. reflexivity. Qed.

(** ** The guard of the column flattener *)

Definition column_guard_fires (response_data : json) : Prop :=
  truthy response_data = false \/
  exists top,
    response_data = JObj top /\
    (dict_get "data" top = None \/
     exists d1, dict_get "data" top = Some (JObj d1) /\ dict_get "column" d1 = None).

Definition no_valid_column_data : printed :=
  Text "No valid column lineage data found in the response".

(** When the response is empty, or has no [data], or its [data] has no
    [column], the column flattener prints its notice and returns the empty
    table; nothing is raised and nothing is sent. *)
Theorem X2_column_guard_is_soft (response_data : json) (w : World) :
  column_guard_fires response_data ->
  parse_column_lineage_to_df response_data w
  = (printing w [no_valid_column_data], Ok []).
Proof.
  intros H. unfold parse_column_lineage_to_df, bind, lift, ret, print.
  now rewrite (path_guard_fires "data" "column" H).
Qed.

Lemma X2_column_guard_is_soft_witness :
  parse_column_lineage_to_df (JObj []) w0 = (printing w0 [no_valid_column_data], Ok []).
Proof.
  apply (@X2_column_guard_is_soft (JObj []) w0). left. reflexivity.
Defined.

(** Below the guard nothing is checked: with [data.column] present and
    [lineage] missing the subscript raises [KeyError('lineage')]. *)
Theorem X3_column_lineage_key_missing (top d1 d2 : dict) (w : World) :
  dict_get "data" top = Some (JObj d1) ->
  dict_get "column" d1 = Some (JObj d2) ->
  dict_get "lineage" d2 = None ->
  parse_column_lineage_to_df (JObj top) w = (w, Raise (KeyError (JStr "lineage"))).
Proof.
  intros H1 H2 H3. unfold parse_column_lineage_to_df, bind, lift, ret.
  rewrite (@path_guard_present _ _ _ _ _ H1 H2).
  cbn [py_getitem rbind]. rewrite H1. cbn [py_getitem rbind]. rewrite H2.
  cbn [py_getitem rbind]. now rewrite H3.
Qed.

Lemma X3_column_lineage_key_missing_witness :
  parse_column_lineage_to_df
    (JObj [("data", JObj [("column", JObj [("error", JStr "timeout")])])]) w0
  = (w0, Raise (KeyError (JStr "lineage"))).
Proof.
  apply (@X3_column_lineage_key_missing
           [("data", JObj [("column", JObj [("error", JStr "timeout")])])]
           [("column", JObj [("error", JStr "timeout")])]
           [("error", JStr "timeout")] w0); reflexivity.
Defined.

(** ** Explicit nulls in the parent lists *)

(** [get(key, [])] falls back to the empty list only when the key is
    missing.  An entry whose [parentIds] is null makes the model row builder
    raise [TypeError], and so does a null [parentColumns] in a column entry
    that has a string name. *)
Theorem X4_null_parent_list_raises (fields : dict) :
  (dict_get "parentIds" fields = Some JNull ->
   model_row (JObj fields) = Raise TypeError) /\
  (dict_get "parentColumns" fields = Some JNull ->
   forall name, dict_get "name" fields = Some (JStr name) ->
   column_row (JObj fields) = Raise TypeError).
Proof.
  split.
  - intros H. unfold model_row, py_get. cbn [py_get_default rbind].
    now rewrite H.
  - intros H name Hn. unfold column_row, py_get. cbn [py_get_default rbind].
    rewrite Hn, H. reflexivity.
Qed.

Lemma X4_null_parent_list_raises_witness :
  model_row (JObj [("uniqueId", JStr "model.a.b"); ("parentIds", JNull)])
  = Raise TypeError /\
  column_row (JObj [("name", JStr "id"); ("parentColumns", JNull)]) = Raise TypeError.
Proof.
  split.
  - apply (proj1 (X4_null_parent_list_raises
                    [("uniqueId", JStr "model.a.b"); ("parentIds", JNull)])).
    reflexivity.
  - apply (proj2 (X4_null_parent_list_raises
                    [("name", JStr "id"); ("parentColumns", JNull)]) eq_refl "id").
    reflexivity.
Defined.

(** ** The variables a query is run with *)

Lemma dict_get_set_same (k : string) (v : json) (d : dict) :
  dict_get k (dict_set k v d) = Some v.
Proof.
  induction d as [|[k0 v0] d IH]; simpl.
  - now rewrite String.eqb_refl.
  - destruct (String.eqb_spec k k0) as [<-|Hne]; simpl.
    + now rewrite String.eqb_refl.
    + destruct (String.eqb_spec k k0); [contradiction | exact IH].
Qed.

(** Whatever the caller passes, [$environmentId] stands for the
    environment read at import time (a caller's own [environmentId] is
    overridden), and every other variable keeps the caller's value. *)
Theorem X5_environment_always_wins (env_id : option string)
    (variables : option dict) (k : string) :
  k <> "environmentId" ->
  dict_get "environmentId" (effective_variables env_id variables)
  = Some (JStr (format_env_id env_id)) /\
  dict_get k (effective_variables env_id variables)
  = match variables with
    | Some d => dict_get k d
    | None => None
    end.
Proof.
  intros Hk. unfold effective_variables.
  assert (dict_get k [("environmentId", JStr (format_env_id env_id))] = None) as Henv.
  { simpl. destruct (String.eqb_spec k "environmentId"); [contradiction | reflexivity]. }
  destruct variables as [[|kv vs]|].
  - split; [reflexivity | exact Henv].
  - unfold dict_union. cbn [fold_left fst snd]. split.
    + apply dict_get_set_same.
    + now apply dict_get_set_other.
  - split; [reflexivity | exact Henv].
Qed.

Lemma X5_environment_always_wins_witness :
  dict_get "environmentId"
    (effective_variables (Some "env123")
       (Some [("environmentId", JStr "mine"); ("nodeUniqueId", JStr "model.a.b")]))
  = Some (JStr (format_env_id (Some "env123"))) /\
  dict_get "nodeUniqueId"
    (effective_variables (Some "env123")
       (Some [("environmentId", JStr "mine"); ("nodeUniqueId", JStr "model.a.b")]))
  = dict_get "nodeUniqueId"
      [("environmentId", JStr "mine"); ("nodeUniqueId", JStr "model.a.b")].
Proof.
  apply (@X5_environment_always_wins (Some "env123")
           (Some [("environmentId", JStr "mine"); ("nodeUniqueId", JStr "model.a.b")])
           "nodeUniqueId").
  discriminate.
Defined.

(** ** Exceptions of the transport *)

(** [execute_query] catches nothing: when the POST raises, or when the
    status is 200 and decoding the body raises, the call raises that very
    exception, after recording the request and without printing. *)
Theorem X6_execute_query_propagates (env_id : option string)
    (post : list string -> string -> result Response)
    (query : string) (variables : option dict) (w : World) (e : exn) :
  (post (requests w) (sent_query env_id query variables) = Raise e \/
   exists response,
     post (requests w) (sent_query env_id query variables) = Ok response /\
     status_code response = 200%Z /\
     json_body response = Raise e) ->
  execute_query env_id post query variables w
  = (sent w (sent_query env_id query variables), Raise e).
Proof.
  rewrite execute_query_unfold.
  intros [->|(response & -> & Hs & Hb)]; [reflexivity|].
  unfold handle_response, lift. now rewrite Hs, Hb.
Qed.

Lemma X6_execute_query_propagates_witness :
  execute_query (Some "env123")
    (fun _ _ => Ok (mkResponse 200 "<html>" (Raise (JSONDecodeError "Expecting value"))))
    "{ q }" None w0
  = (sent w0 (sent_query (Some "env123") "{ q }" None),
     Raise (JSONDecodeError "Expecting value")).
Proof.
  apply (@X6_execute_query_propagates (Some "env123")
           (fun _ _ => Ok (mkResponse 200 "<html>"
                             (Raise (JSONDecodeError "Expecting value"))))
           "{ q }" None w0 (JSONDecodeError "Expecting value")).
  right. eexists. split; [reflexivity|]. split; reflexivity.
Defined.

(** ** Templates without a placeholder *)

Lemma contains_false_prefix (old s : string) :
  contains old s = false -> strip_prefix old s = None.
Proof.
  intros H. destruct (strip_prefix old s) as [r|] eqn:Hs; [|reflexivity].
  assert (String.prefix old s = true) as Hp by (apply strip_prefix_prefix; now exists r).
  destruct s; cbn [contains] in H; apply orb_false_elim in H;
    destruct H as [Hp' _]; congruence.
Qed.

Lemma replace_from_absent (old new : string) (fuel : nat) (s : string) :
  contains old s = false -> replace_from fuel old new s = s.
Proof.
  revert s; induction fuel as [|fuel IH]; intros s H; [reflexivity|].
  cbn [replace_from]. rewrite (contains_false_prefix _ _ H).
  destruct s as [|c r]; [reflexivity|].
  rewrite IH; [reflexivity|].
  cbn [contains] in H. now apply orb_false_elim in H.
Qed.

(** A text in which no [$key] of the variable set occurs is sent as it is. *)
Theorem X7_no_placeholder_no_change (variables : dict) (query : string) :
  Forall (fun kv => contains ("$" ++ fst kv) query = false) variables ->
  substitute variables query = query.
Proof.
  unfold substitute. induction 1 as [|[key value] variables Hkv _ IH]; [reflexivity|].
  cbn [fold_left fst snd]. cbn [fst] in Hkv.
  assert (str_replace ("$" ++ key) (json_dumps value) query = query) as ->.
  { unfold str_replace. cbn [append]. now apply replace_from_absent. }
  exact IH.
Qed.

Lemma X7_no_placeholder_no_change_witness :
  substitute [("environmentId", JStr "env123")] "{ environment { name } } costs $5"
  = "{ environment { name } } costs $5".
Proof.
  apply (@X7_no_placeholder_no_change [("environmentId", JStr "env123")]
           "{ environment { name } } costs $5").
  repeat constructor.
Defined.

(** ** The text of the model-lineage request *)




(** ** String literals are ASCII *)

Definition printable (c : ascii) : bool :=
  let n := nat_of_ascii c in ((32 <=? n) && (n <=? 126))%nat.

Fixpoint all_chars (P : ascii -> bool) (s : string) : bool :=
  match s with
  | EmptyString => true
  | String c r => P c && all_chars P r
  end.

Lemma all_chars_app (P : ascii -> bool) (a b : string) :
  all_chars P (a ++ b) = all_chars P a && all_chars P b.
Proof.
  induction a as [|c a IH]; simpl; [reflexivity|].
  now rewrite IH, andb_assoc.
Qed.

Lemma escape_char_printable (c : ascii) : all_chars printable (escape_char c) = true.
Proof. destruct c as [[] [] [] [] [] [] [] []]; vm_compute; reflexivity. Qed.

(** Whatever characters a string holds, the literal [json.dumps] makes of
    it consists of printable ASCII characters only. *)
Theorem X9_string_literal_is_ascii (s : string) :
  all_chars printable (escape s) = true /\
  all_chars printable (json_dumps (JStr s)) = true.
Proof.
  assert (all_chars printable (escape s) = true) as H.
  { induction s as [|c s IH]; [reflexivity|].
    cbn [escape]. now rewrite all_chars_app, escape_char_printable, IH. }
  split; [exact H|].
  cbn [json_dumps]. unfold quote. rewrite !all_chars_app, H. reflexivity.
Qed.

Example escape_line_break :
  escape (String "010"%char (String "233"%char "x")) = "\n\" ++ "u00e9x".
Proof. reflexivity. Qed.

(** ** The model stage of the build *)

Definition no_models_found : printed := Text "No models found in the environment".

(** The build's first request is the model-lineage query.  When it comes
    back with a status other than 200, the build prints the failure, the
    two notices, and returns the empty table: no column query is sent. *)
Theorem X10_failed_model_query_ends_build (env_id : option string)
    (post : list string -> string -> result Response) (w : World) (response : Response) :
  post (requests w) (sent_query env_id model_lineage_query None) = Ok response ->
  status_code response <> 200%Z ->
  build_comprehensive_column_lineage env_id post w
  = (printing (sent w (sent_query env_id model_lineage_query None))
              (query_failed response ++ [no_valid_data; no_models_found]),
     Ok []).
Proof.
  intros Hpost Hstatus.
  unfold build_comprehensive_column_lineage, query_model_lineage.
  rewrite execute_query_then, Hpost.
  generalize (sent_query env_id model_lineage_query None). intros q.
  unfold handle_response.
  destruct (Z.eqb_spec (status_code response) 200) as [|_]; [contradiction|].
  unfold bind, print, ret, lift, printing, sent, query_failed.
  cbn [requests stdout]. unfold parse_model_lineage_to_df, bind, lift, print, ret.
  cbn [path_guard truthy negb df_empty requests stdout].
  rewrite <- !app_assoc. reflexivity.
Qed.

Lemma X10_failed_model_query_ends_build_witness :
  build_comprehensive_column_lineage (Some "env123") (C7_post 503) w0
  = (printing (sent w0 (sent_query (Some "env123") model_lineage_query None))
              (query_failed (mkResponse 503 "body" (Ok C7_body))
               ++ [no_valid_data; no_models_found]),
     Ok []).
Proof.
  apply (@X10_failed_model_query_ends_build (Some "env123") (C7_post 503) w0
           (mkResponse 503 "body" (Ok C7_body)) eq_refl).
  discriminate.
Defined.

(** Only the per-model work is inside the [try].  When the model-lineage
    POST raises, or its body is decoded and the model flattener raises on
    it, the build raises that exception and sends nothing more. *)
Theorem X11_model_stage_failures_are_fatal (env_id : option string)
    (post : list string -> string -> result Response) (w w' : World) (e : exn) :
  let q := sent_query env_id model_lineage_query None in
  (post (requests w) q = Raise e /\ w' = sent w q) \/
  (exists response body,
      post (requests w) q = Ok response /\
      status_code response = 200%Z /\
      json_body response = Ok body /\
      parse_model_lineage_to_df body (sent w q) = (w', Raise e)) ->
  build_comprehensive_column_lineage env_id post w = (w', Raise e).
Proof.
  intros q H.
  unfold build_comprehensive_column_lineage, query_model_lineage.
  rewrite execute_query_then. fold q.
  destruct H as [[-> ->]|(response & body & -> & Hs & Hb & Hparse)]; [reflexivity|].
  unfold handle_response. rewrite Hs. cbn [Z.eqb Pos.eqb].
  unfold bind at 1, lift. rewrite Hb.
  unfold bind at 1. now rewrite Hparse.
Qed.

Definition X11_post : list string -> string -> result Response :=
  fun _ _ => Ok (mkResponse 200 "{}" (Ok C3_response)).

Lemma X11_model_stage_failures_are_fatal_witness :
  build_comprehensive_column_lineage (Some "env123") X11_post w0
  = (sent w0 (sent_query (Some "env123") model_lineage_query None),
     Raise (KeyError (JStr "definition"))).
Proof.
  apply (@X11_model_stage_failures_are_fatal (Some "env123") X11_post w0
           (sent w0 (sent_query (Some "env123") model_lineage_query None))
           (KeyError (JStr "definition"))).
  right. exists (mkResponse 200 "{}" (Ok C3_response)), C3_response.
  split; [reflexivity|]. split; [reflexivity|]. split; reflexivity.
Defined.

(** ** From the lineage entries to the column queries *)





(** * [get_lineage.py]: the script *)

(** The files written so far, oldest first. *)
Definition files : Type := list (string * DataFrame).

(** The script runs in the world of the client together with the disk. *)
Definition proc (A : Type) : Type := World * files -> (World * files) * result A.

Definition pret {A} (a : A) : proc A := fun s => (s, Ok a).

Definition pbind {A B} (m : proc A) (k : A -> proc B) : proc B :=
  fun s =>
    match m s with
    | (s', Ok a) => k a s'
    | (s', Raise e) => (s', Raise e)
    end.

(** A call into the client: it does not touch the disk. *)
Definition call {A} (m : io A) : proc A :=
  fun s => let (w', r) := m (fst s) in ((w', snd s), r).

Declare Scope proc_scope.
Delimit Scope proc_scope with proc.
Notation "x <== m ;; k" := (pbind m (fun x => k))
  (at level 61, m at next level, right associativity) : proc_scope.
Notation "m ;;;; k" := (pbind m (fun _ => k))
  (at level 61, right associativity) : proc_scope.

(** [df.head()] *)
Definition head (df : DataFrame) : DataFrame := firstn 5 df.

Section Script.

Variable env_id : option string.
Variable post : list string -> string -> result Response.

(** How pandas renders a frame for [print]. *)
Variable render : DataFrame -> string.

(** What [df.to_parquet(path, index=False)] does: it writes or raises. *)
Variable to_parquet : string -> DataFrame -> result unit.

Definition write_parquet (path : string) (df : DataFrame) : proc unit :=
  fun s =>
    match to_parquet path df with
    | Ok _ => ((fst s, snd s ++ [(path, df)])%list, Ok tt)
    | Raise e => (s, Raise e)
    end.

Definition say (line : string) : proc unit := call (print (Text line)).

Definition newline : string := String "010"%char EmptyString.

(** [main()].  The API token only sets a request header; the service
    [post] stands for the endpoint as reached with that header. *)
Definition main : proc unit :=
  (model_response <== call (query_model_lineage env_id post) ;;
   model_df <== call (parse_model_lineage_to_df model_response) ;;
   (if negb (df_empty model_df) then
      say "Model lineage data:" ;;;;
      say (render (head model_df)) ;;;;
      write_parquet "dbt_model_lineage.parquet" model_df ;;;;
      say "Model lineage saved to dbt_model_lineage.parquet"
    else pret tt) ;;;;
   column_lineage_df <== call (build_comprehensive_column_lineage env_id post) ;;
   if negb (df_empty column_lineage_df) then
     say (newline ++ "Column lineage data:") ;;;;
     say (render (head column_lineage_df)) ;;;;
     write_parquet "dbt_column_lineage.parquet" column_lineage_df ;;;;
     say "Column lineage saved to dbt_column_lineage.parquet"
   else
     say (newline ++ "No column lineage data found"))%proc.

End Script.

(** ** Requests are only ever added *)

Definition extends (w w' : World) : Prop :=
  exists more, requests w' = (requests w ++ more)%list.

Lemma extends_refl (w : World) : extends w w.
Proof. exists []. now rewrite app_nil_r. Qed.

Lemma extends_trans (a b c : World) : extends a b -> extends b c -> extends a c.
Proof.
  intros [m1 H1] [m2 H2]. exists (m1 ++ m2)%list. now rewrite H2, H1, app_assoc.
Qed.

Definition appends {A} (m : io A) : Prop := forall w, extends w (fst (m w)).

Lemma appends_ret {A} (a : A) : appends (ret a).
Proof. intros w. apply extends_refl. Qed.

Lemma appends_lift {A} (r : result A) : appends (lift r).
Proof. intros w. apply extends_refl. Qed.

Lemma appends_print (line : printed) : appends (print line).
Proof. intros w. exists []. cbn. now rewrite app_nil_r. Qed.

Lemma appends_bind {A B} (m : io A) (k : A -> io B) :
  appends m -> (forall a, appends (k a)) -> appends (bind m k).
Proof.
  intros Hm Hk w. unfold bind. specialize (Hm w).
  destruct (m w) as [w1 [a|e]]; cbn [fst] in *; [|exact Hm].
  exact (extends_trans Hm (Hk a w1)).
Qed.

Lemma appends_try_except {A} (m : io A) (h : exn -> io A) :
  appends m -> (forall e, appends (h e)) -> appends (try_except m h).
Proof.
  intros Hm Hh w. unfold try_except. specialize (Hm w).
  destruct (m w) as [w1 [a|e]]; cbn [fst] in *; [exact Hm|].
  exact (extends_trans Hm (Hh e w1)).
Qed.

Lemma appends_silent {A} (m : io A) : silent m -> appends m.
Proof. intros H w. rewrite (H w). exists []. cbn. now rewrite app_nil_r. Qed.

Create HintDb appends.
#[local] Hint Resolve appends_ret appends_lift appends_print : appends.

Section Appends.

Variable env_id : option string.
Variable post : list string -> string -> result Response.

Lemma appends_execute_query (query : string) (variables : option dict) :
  appends (execute_query env_id post query variables).
Proof.
  intros w. destruct (execute_query env_id post query variables w) as [w1 r] eqn:H.
  eexists. exact (execute_query_requests _ _ _ _ _ H).
Qed.

Lemma appends_process_model (model : row) (acc : list DataFrame) :
  appends (process_model env_id post model acc).
Proof.
  unfold process_model.
  apply appends_bind; [auto with appends|]. intros unique_id.
  destruct (negb (truthy unique_id)); [auto with appends|].
  apply appends_try_except.
  - apply appends_bind; [apply appends_execute_query|]. intros column_response.
    apply appends_bind; [apply appends_silent, silent_parse_column|]. intros column_df.
    destruct (negb (df_empty column_df)); auto with appends.
  - intros e. apply appends_bind; auto with appends.
Qed.

Lemma appends_process_models (models : DataFrame) (acc : list DataFrame) :
  appends (process_models env_id post models acc).
Proof.
  revert acc. induction models as [|model models IH]; intros acc; cbn [process_models].
  - auto with appends.
  - apply appends_bind; [apply appends_process_model | exact IH].
Qed.

(** Whatever happens next, the build begins by sending the model-lineage
    query. *)
Lemma build_sends_model_query_first (w : World) :
  exists rest,
    requests (fst (build_comprehensive_column_lineage env_id post w))
    = (requests w ++ sent_query env_id model_lineage_query None :: rest)%list.
Proof.
  set (after_models := fun model_response : json =>
         bind (parse_model_lineage_to_df model_response)
           (fun model_df =>
              if df_empty model_df
              then bind (print (Text "No models found in the environment"))
                        (fun _ => ret [])
              else
                bind (process_models env_id post model_df [])
                  (fun all_column_lineage_rows =>
                     match all_column_lineage_rows with
                     | _ :: _ => ret (pd_concat all_column_lineage_rows)
                     | [] => ret []
                     end))).
  change (build_comprehensive_column_lineage env_id post w)
    with (bind (query_model_lineage env_id post) after_models w).
  unfold bind at 1.
  destruct (query_model_lineage env_id post w) as [w1 [model_response|e]] eqn:Hq;
    pose proof (execute_query_requests _ _ _ _ _ Hq) as Hw1.
  - assert (appends (after_models model_response)) as Hrest.
    { unfold after_models.
      apply appends_bind; [apply appends_silent, silent_parse_model|].
      intros model_df. destruct (df_empty model_df).
      - apply appends_bind; auto with appends.
      - apply appends_bind; [apply appends_process_models|].
        intros [|df dfs]; auto with appends. }
    destruct (Hrest w1) as [more Hmore].
    exists more. etransitivity; [exact Hmore|].
    rewrite Hw1, <- app_assoc. reflexivity.
  - exists []. cbn [fst]. exact Hw1.
Qed.

End Appends.

(** ** What the script keeps while it runs *)

Section ProcInvariant.

Variable S : World * files -> World * files -> Prop.
Hypothesis S_refl : forall s, S s s.
Hypothesis S_trans : forall a b c, S a b -> S b c -> S a c.

Definition pkeeps {A} (m : proc A) : Prop := forall s, S s (fst (m s)).

Lemma pkeeps_pret {A} (a : A) : pkeeps (pret a).
Proof. intros s. apply S_refl. Qed.

Lemma pkeeps_pbind {A B} (m : proc A) (k : A -> proc B) :
  pkeeps m -> (forall a, pkeeps (k a)) -> pkeeps (pbind m k).
Proof.
  intros Hm Hk s. unfold pbind. specialize (Hm s).
  destruct (m s) as [s1 [a|e]]; cbn [fst] in *; [|exact Hm].
  exact (S_trans Hm (Hk a s1)).
Qed.

End ProcInvariant.

(** A file the script may write: one of its two names, and a table that
    has rows. *)
Definition good_file (f : string * DataFrame) : Prop :=
  snd f <> [] /\
  (fst f = "dbt_model_lineage.parquet" \/ fst f = "dbt_column_lineage.parquet").

Definition adds_good_files (s s' : World * files) : Prop :=
  exists written, snd s' = (snd s ++ written)%list /\ Forall good_file written.

Lemma adds_good_files_refl (s : World * files) : adds_good_files s s.
Proof. exists []. split; [now rewrite app_nil_r | constructor]. Qed.

Lemma adds_good_files_trans (a b c : World * files) :
  adds_good_files a b -> adds_good_files b c -> adds_good_files a c.
Proof.
  intros (l1 & H1 & G1) (l2 & H2 & G2). exists (l1 ++ l2)%list. split.
  - now rewrite H2, H1, app_assoc.
  - apply Forall_app. now split.
Qed.

Definition sends_more (s s' : World * files) : Prop := extends (fst s) (fst s').

Lemma sends_more_refl (s : World * files) : sends_more s s.
Proof. apply extends_refl. Qed.

Lemma sends_more_trans (a b c : World * files) :
  sends_more a b -> sends_more b c -> sends_more a c.
Proof. apply extends_trans. Qed.

Section ScriptProperties.

Variable env_id : option string.
Variable post : list string -> string -> result Response.
Variable render : DataFrame -> string.
Variable to_parquet : string -> DataFrame -> result unit.

Lemma call_keeps_files {A} (m : io A) : pkeeps adds_good_files (call m).
Proof.
  intros s. unfold call. destruct (m (fst s)) as [w' r]. cbn [fst snd].
  exists []. cbn [fst snd]. split; [now rewrite app_nil_r | constructor].
Qed.

Lemma write_keeps_files (path : string) (df : DataFrame) :
  good_file (path, df) -> pkeeps adds_good_files (write_parquet to_parquet path df).
Proof.
  intros Hgood s. unfold write_parquet.
  destruct (to_parquet path df); cbn [fst snd].
  - exists [(path, df)]. split; [reflexivity | now constructor].
  - apply adds_good_files_refl.
Qed.

Lemma call_sends_more {A} (m : io A) : appends m -> pkeeps sends_more (call m).
Proof.
  intros Hm s. unfold call, sends_more. specialize (Hm (fst s)).
  destruct (m (fst s)) as [w' r]. exact Hm.
Qed.

Lemma write_sends_more (path : string) (df : DataFrame) :
  pkeeps sends_more (write_parquet to_parquet path df).
Proof.
  intros s. unfold write_parquet, sends_more.
  destruct (to_parquet path df); cbn [fst]; apply extends_refl.
Qed.

(** What the script does with a table once it has it. *)
Definition report (title : string) (path : string) (saved : string) (df : DataFrame)
  : proc unit :=
  (say title ;;;;
   say (render (head df)) ;;;;
   write_parquet to_parquet path df ;;;;
   say saved)%proc.

Lemma report_keeps_files (title path saved : string) (df : DataFrame) :
  good_file (path, df) -> pkeeps adds_good_files (report title path saved df).
Proof.
  intros Hgood. unfold report, say.
  repeat (apply (pkeeps_pbind adds_good_files_trans);
          [first [apply call_keeps_files | now apply write_keeps_files] | intros _]).
  apply call_keeps_files.
Qed.

Lemma report_sends_more (title path saved : string) (df : DataFrame) :
  pkeeps sends_more (report title path saved df).
Proof.
  unfold report, say.
  repeat (apply (pkeeps_pbind sends_more_trans);
          [first [apply call_sends_more, appends_print | apply write_sends_more]
          | intros _]).
  apply call_sends_more, appends_print.
Qed.

(** The script writes at most its two files, and never an empty table:
    whatever the service answers and whether or not writing succeeds, the
    disk after [main] is the disk before it followed by files that each
    carry one of the two fixed names and a table with rows. *)
Theorem X13_script_writes_only_tables_with_rows (s : World * files) :
  exists written,
    snd (fst (main env_id post render to_parquet s)) = (snd s ++ written)%list /\
    Forall good_file written.
Proof.
  assert (pkeeps adds_good_files (main env_id post render to_parquet)) as H.
  { unfold main.
    apply (pkeeps_pbind adds_good_files_trans); [apply call_keeps_files|].
    intros model_response.
    apply (pkeeps_pbind adds_good_files_trans); [apply call_keeps_files|].
    intros model_df.
    apply (pkeeps_pbind adds_good_files_trans).
    - destruct model_df as [|r rs]; cbn [df_empty negb].
      + apply pkeeps_pret. exact adds_good_files_refl.
      + apply (@report_keeps_files "Model lineage data:" "dbt_model_lineage.parquet"
                 "Model lineage saved to dbt_model_lineage.parquet" (r :: rs)).
        split; [discriminate | now left].
    - intros _.
      apply (pkeeps_pbind adds_good_files_trans); [apply call_keeps_files|].
      intros column_lineage_df.
      destruct column_lineage_df as [|r rs]; cbn [df_empty negb].
      + apply call_keeps_files.
      + apply (@report_keeps_files (newline ++ "Column lineage data:")
                 "dbt_column_lineage.parquet"
                 "Column lineage saved to dbt_column_lineage.parquet" (r :: rs)).
        split; [discriminate | now right]. }
  exact (H s).
Qed.

End ScriptProperties.

Section ScriptRequests.

Variable env_id : option string.
Variable post : list string -> string -> result Response.
Variable render : DataFrame -> string.
Variable to_parquet : string -> DataFrame -> result unit.

Lemma report_done (title path saved : string) (df : DataFrame) (w : World) (fs : files) :
  to_parquet path df = Ok tt ->
  exists w' fs',
    report render to_parquet title path saved df (w, fs) = ((w', fs'), Ok tt) /\
    requests w' = requests w.
Proof.
  intros Hw. unfold report, say, pbind, call, print, write_parquet.
  cbn [fst snd]. rewrite Hw. cbn [fst snd]. eexists _, _. split; reflexivity.
Qed.

(** The script asks for the model lineage twice: once for the table it
    writes, and once more inside the build.  When the first fetch and its
    flattening succeed (and the model file, if any, is written), the first
    two requests the script sends are both the model-lineage query. *)
Theorem X14_script_fetches_models_twice (w w1 w2 : World) (fs : files)
    (model_response : json) (model_df : DataFrame) :
  query_model_lineage env_id post w = (w1, Ok model_response) ->
  parse_model_lineage_to_df model_response w1 = (w2, Ok model_df) ->
  (model_df = [] \/ to_parquet "dbt_model_lineage.parquet" model_df = Ok tt) ->
  exists rest,
    requests (fst (fst (main env_id post render to_parquet (w, fs))))
    = (requests w
       ++ sent_query env_id model_lineage_query None
       :: sent_query env_id model_lineage_query None :: rest)%list.
Proof.
  intros Hq Hp Hw.
  pose proof (execute_query_requests _ _ _ _ _ Hq) as Hw1.
  assert (requests w2 = requests w1) as Hw2.
  { pose proof (silent_parse_model model_response w1) as Hs.
    rewrite Hp in Hs. now injection Hs as -> _. }
  set (finish := fun column_lineage_df : DataFrame =>
         if negb (df_empty column_lineage_df)
         then report render to_parquet (newline ++ "Column lineage data:")
                "dbt_column_lineage.parquet"
                "Column lineage saved to dbt_column_lineage.parquet" column_lineage_df
         else say (newline ++ "No column lineage data found")).
  assert (forall df, pkeeps sends_more (finish df)) as Hfinish.
  { intros df. unfold finish. destruct (negb (df_empty df)).
    - apply report_sends_more.
    - apply call_sends_more, appends_print. }
  set (build_and_finish :=
         pbind (call (build_comprehensive_column_lineage env_id post)) finish).
  assert (forall w3 fs3, requests w3 = requests w2 ->
            exists rest,
              requests (fst (fst (build_and_finish (w3, fs3))))
              = (requests w
                 ++ sent_query env_id model_lineage_query None
                 :: sent_query env_id model_lineage_query None :: rest)%list) as Hbuild.
  { intros w3 fs3 Hw3. unfold build_and_finish, pbind, call. cbn [fst snd].
    destruct (build_sends_model_query_first env_id post w3) as [rest Hrest].
    destruct (build_comprehensive_column_lineage env_id post w3) as [w4 [df|e]];
      cbn [fst] in Hrest.
    - destruct (Hfinish df (w4, fs3)) as [more Hmore]. cbn [fst] in Hmore.
      exists (rest ++ more)%list.
      rewrite Hmore, Hrest, Hw3, Hw2, Hw1, <- !app_assoc. reflexivity.
    - exists rest. cbn [fst].
      rewrite Hrest, Hw3, Hw2, Hw1, <- !app_assoc. reflexivity. }
  change (main env_id post render to_parquet (w, fs))
    with (pbind (call (query_model_lineage env_id post))
            (fun model_response =>
               pbind (call (parse_model_lineage_to_df model_response))
                 (fun model_df =>
                    pbind (if negb (df_empty model_df)
                           then report render to_parquet "Model lineage data:"
                                  "dbt_model_lineage.parquet"
                                  "Model lineage saved to dbt_model_lineage.parquet"
                                  model_df
                           else pret tt)
                      (fun _ => build_and_finish))) (w, fs)).
  unfold pbind at 1, call at 1. cbn [fst snd]. rewrite Hq.
  unfold pbind at 1, call at 1. cbn [fst snd]. rewrite Hp.
  unfold pbind at 1.
  destruct model_df as [|r rs]; cbn [df_empty negb].
  - unfold pret. now apply Hbuild.
  - destruct Hw as [Hw|Hw]; [discriminate|].
    destruct (@report_done "Model lineage data:" "dbt_model_lineage.parquet"
                "Model lineage saved to dbt_model_lineage.parquet" (r :: rs) w2 fs Hw)
      as (w3 & fs3 & -> & Hw3).
    now apply Hbuild.
Qed.

End ScriptRequests.

Definition X14_to_parquet : string -> DataFrame -> result unit := fun _ _ => Ok tt.

Definition X14_render : DataFrame -> string := fun _ => "table".

Lemma X14_script_fetches_models_twice_witness :
  exists rest,
    requests (fst (fst (main (Some "env123") C5_post X14_render X14_to_parquet (w0, []))))
    = (requests w0
       ++ sent_query (Some "env123") model_lineage_query None
       :: sent_query (Some "env123") model_lineage_query None :: rest)%list.
Proof.
  assert (query_model_lineage (Some "env123") C5_post w0 = (C5_w1, Ok C5_model_response))
    as Hquery by (vm_compute; reflexivity).
  assert (parse_model_lineage_to_df C5_model_response C5_w1 = (C5_w1, Ok C5_model_df))
    as Hparse by (vm_compute; reflexivity).
  exact (@X14_script_fetches_models_twice (Some "env123") C5_post X14_render
           X14_to_parquet w0 C5_w1 C5_w1 [] C5_model_response C5_model_df
           Hquery Hparse (or_intror eq_refl)).
Defined.

(** ** More on parent names *)

Lemma span_nondot_app_dot (s t : string) :
  span_nondot (s ++ String "."%char t)
  = (fst (span_nondot s), snd (span_nondot s) ++ String "."%char t).
Proof.
  induction s as [|c s IH]; [reflexivity|].
  cbn [append span_nondot].
  destruct (Ascii.eqb c "."); [reflexivity|].
  rewrite IH. destruct (span_nondot s) as [run rest]. reflexivity.
Qed.

Lemma strip_prefix_app_r (p s r x : string) :
  strip_prefix p s = Some r -> strip_prefix p (s ++ x) = Some (r ++ x).
Proof.
  revert s; induction p as [|a p IH]; intros s; cbn [strip_prefix].
  - now intros [= ->].
  - destruct s as [|b s]; [discriminate|]. cbn [append].
    destruct (Ascii.eqb a b); [apply IH | discriminate].
Qed.

Lemma re_match_model_suffix (s suffix : string) (groups : string * string) :
  re_match_model s = Some groups ->
  re_match_model (s ++ String "."%char suffix) = Some groups.
Proof.
  unfold re_match_model.
  destruct (strip_prefix "model." s) as [r|] eqn:Hr; [|discriminate].
  rewrite (strip_prefix_app_r _ _ _ Hr), span_nondot_app_dot.
  destruct (span_nondot r) as [[|a pkg] rest]; [discriminate|]. cbn [fst snd].
  destruct rest as [|c r']; [discriminate|].
  destruct c as [[] [] [] [] [] [] [] []]; try discriminate.
  cbn [append]. rewrite span_nondot_app_dot.
  destruct (span_nondot r') as [[|b name] rest']; [discriminate|].
  cbn [fst snd]. now intros H.
Qed.

(** Only the first two segments after [model.] count: a recognized
    identifier keeps its parent name when more dot-separated segments
    follow, so the version of a versioned model is not part of the name. *)
Theorem X15_later_segments_are_ignored (parent_id suffix name : string) :
  extract_parent_model_name (JStr parent_id) = Ok (Some name) ->
  extract_parent_model_name (JStr (parent_id ++ String "."%char suffix)) = Ok (Some name).
Proof.
  unfold extract_parent_model_name.
  destruct (String.prefix "model." parent_id) eqn:Hp; [|discriminate].
  assert (String.prefix "model." (parent_id ++ String "."%char suffix) = true) as ->
    by now apply prefix_app.
  destruct (re_match_model parent_id) as [groups|] eqn:Hm; [|discriminate].
  now rewrite (re_match_model_suffix _ suffix Hm).
Qed.

Lemma X15_later_segments_are_ignored_witness :
  extract_parent_model_name (JStr ("model.shop.orders" ++ String "."%char "v2"))
  = Ok (Some "shop.orders").
Proof.
  apply (@X15_later_segments_are_ignored "model.shop.orders" "v2" "shop.orders").
  reflexivity.
Defined.

(** ** The order of substitution *)

Lemma dict_keys_set (k : string) (v : json) (d : dict) :
  dict_keys (dict_set k v d)
  = if dict_has k d then dict_keys d else (dict_keys d ++ [k])%list.
Proof.
  unfold dict_has, dict_keys. induction d as [|[k0 v0] d IH]; [reflexivity|].
  cbn [dict_set dict_get].
  destruct (String.eqb_spec k k0) as [->|Hne]; [reflexivity|].
  cbn [map fst]. rewrite IH.
  destruct (dict_get k d); reflexivity.
Qed.

(** The variables are substituted in the caller's order; [environmentId]
    comes last, unless the caller named it, in which case it keeps the
    caller's position.  Without variables it is the only one. *)
Theorem X16_substitution_order (env_id : option string) (variables : option dict) :
  dict_keys (effective_variables env_id variables)
  = match variables with
    | Some (kv :: vs) =>
        if dict_has "environmentId" (kv :: vs)
        then dict_keys (kv :: vs)
        else (dict_keys (kv :: vs) ++ ["environmentId"])%list
    | _ => ["environmentId"]
    end.
Proof.
  unfold effective_variables.
  destruct variables as [[|kv vs]|]; [reflexivity| |reflexivity].
  unfold dict_union. cbn [fold_left fst snd]. apply dict_keys_set.
Qed.
